(** * Route health alerts: a shallow embedding of the monitoring pipeline

    The repository holds one pipeline in two deployments:

    - the HTTP-triggered cloud function [monitorDSLRoutes], with its helpers
      [logError], [storeUnhealthyRoutes] and [sendSlackAlert];
    - the one-shot script [testTelerivetRoutes] of [dev/index.js], with its
      own [logError] and [sendSlackAlert] (module [Dev] below).

    JavaScript values are embedded with the coercions the code relies on
    ([typeof], truthiness, [===], [??], [||], template literals, [*], [-],
    [/], [>], [<]); numbers are IEEE 754 binary64 values, computed with the
    integer specification of [SpecFloat].  Text is kept as UTF-8 bytes.
    Effects (console, upstream request, database, chat, HTTP response) are
    recorded in a trace by a small state-and-exception monad; what the outer
    world answers is read from a [World]. *)

From Stdlib Require Import ZArith List String Ascii Bool Lia DecimalString.
From Stdlib Require Import Floats.SpecFloat.
From stdpp Require Import base strings gmap.

Open Scope string_scope.
Open Scope list_scope.
Open Scope Z_scope.

(** ** Text helpers *)

Definition chr (n : nat) : string := String (ascii_of_nat n) EmptyString.

Definition LF : string := chr 10.
Definition DQUOTE : string := chr 34.
Definition BACKSLASH : string := chr 92.
(** U+2022 BULLET and U+2014 EM DASH, as UTF-8. *)
Definition BULLET : string := chr 226 +:+ chr 128 +:+ chr 162.
Definition EMDASH : string := chr 226 +:+ chr 128 +:+ chr 148.

(** Decimal digits of a non-negative integer, no leading zero ("0" for 0). *)
Definition digits (z : Z) : string := NilZero.string_of_uint (N.to_uint (Z.to_N z)).

Definition ndigits (z : Z) : Z := Z.of_nat (String.length (digits z)).

Fixpoint repeat0 (n : nat) : string :=
  match n with
  | O => ""
  | S n' => "0" +:+ repeat0 n'
  end.

Definition str_take (n : Z) (s : string) : string := substring 0 (Z.to_nat n) s.
Definition str_drop (n : Z) (s : string) : string :=
  substring (Z.to_nat n) (String.length s - Z.to_nat n) s.

(** ** Numbers: IEEE 754 binary64 *)

Module JsNumber.

Definition prec : Z := 53.
Definition emax : Z := 1024.

Definition number : Type := spec_float.

Definition NaN : number := S754_nan.
Definition of_Z (z : Z) : number := binary_normalize prec emax z 0 false.

Definition mul : number -> number -> number := SFmul prec emax.
Definition sub : number -> number -> number := SFsub prec emax.
Definition div : number -> number -> number := SFdiv prec emax.
Definition ltb : number -> number -> bool := SFltb.
Definition leb : number -> number -> bool := SFleb.
Definition gtb (x y : number) : bool := SFltb y x.

(** The rational [num / den] (both positive) rounded to the nearest
    number, ties to even. *)
Definition of_ratio (neg : bool) (num den : positive) : number :=
  SFdiv prec emax (S754_finite neg num 0) (S754_finite false den 0).

(** [cmp_scaled a ea qa b eb qb] compares [a * 2^ea * 10^qa] with
    [b * 2^eb * 10^qb] for [a, b >= 0]. *)
Definition cmp_scaled (a ea qa b eb qb : Z) : comparison :=
  let e := ea - eb in
  let q := qa - qb in
  let l := a * 2 ^ Z.max e 0 * 10 ^ Z.max q 0 in
  let r := b * 2 ^ Z.max (- e) 0 * 10 ^ Z.max (- q) 0 in
  l ?= r.

(** [floor_scaled m e q] is the floor of [m * 2^e / 10^q]. *)
Definition floor_scaled (m e q : Z) : Z :=
  (m * 2 ^ Z.max e 0 * 10 ^ Z.max (- q) 0) / (2 ^ Z.max (- e) 0 * 10 ^ Z.max q 0).

(** The [n] with [10^(n-1) <= m * 2^e < 10^n], for [m > 0]. *)
Definition decimal_exponent (m e : Z) : Z :=
  let i := floor_scaled m e 0 in
  if 0 <? i then ndigits i
  else
    let d := 2 ^ (- e) in
    let q := (d + m - 1) / m in
    1 - ndigits (q - 1).

(** Does the real [s * 10^q] round to the number [m * 2^e]?  The reals
    that do lie between the midpoints to the two neighbours, the
    midpoints included when [m] is even. *)
Definition rounds_to (m e s q : Z) : bool :=
  let binade_start := (m =? 2 ^ (prec - 1)) && (emin prec emax <? e) in
  let lo :=
    if binade_start then cmp_scaled (4 * m - 1) (e - 2) 0 s 0 q
    else cmp_scaled (2 * m - 1) (e - 1) 0 s 0 q in
  let hi := cmp_scaled s 0 q (2 * m + 1) (e - 1) 0 in
  let closed := Z.even m in
  match lo, hi with
  | Lt, Lt => true
  | Eq, (Lt | Eq) => closed
  | Lt, Eq => closed
  | _, _ => false
  end.

(** Step 5 of Number::toString: the shortest digit string [s] of [k]
    digits and the exponent [n] with [s * 10^(n-k)] rounding to the
    number; among two candidates the one nearer to the number (the
    larger on a tie, which the standard leaves open). *)
Fixpoint shortest (fuel : nat) (k : Z) (m e n0 : Z) : Z * Z * Z :=
  let q := n0 - k in
  let lo := floor_scaled m e q in
  let hi := lo + 1 in
  let lo_ok := (10 ^ (k - 1) <=? lo) && rounds_to m e lo q in
  let hi_ok := rounds_to m e hi q in
  let pick_hi := if hi =? 10 ^ k then (n0 + 1, k, 10 ^ (k - 1)) else (n0, k, hi) in
  match lo_ok, hi_ok with
  | true, false => (n0, k, lo)
  | false, true => pick_hi
  | true, true =>
      (* nearer of the two: compare [2 * x] with [(lo + hi) * 10^q] *)
      match cmp_scaled (2 * m) e 0 (lo + hi) 0 q with
      | Lt => (n0, k, lo)
      | _ => pick_hi
      end
  | false, false =>
      match fuel with
      | O => (n0, k, lo)
      | S fuel' => shortest fuel' (k + 1) m e n0
      end
  end.

(** Steps 6 to 10 of Number::toString. *)
Definition format_digits (n k s : Z) : string :=
  let ds := digits s in
  if (k <=? n) && (n <=? 21) then ds +:+ repeat0 (Z.to_nat (n - k))
  else if (0 <? n) && (n <=? 21) then str_take n ds +:+ "." +:+ str_drop n ds
  else if (-6 <? n) && (n <=? 0) then "0." +:+ repeat0 (Z.to_nat (- n)) +:+ ds
  else
    let ex := n - 1 in
    let sign := if ex <? 0 then "-" else "+" in
    if k =? 1 then ds +:+ "e" +:+ sign +:+ digits (Z.abs ex)
    else str_take 1 ds +:+ "." +:+ str_drop 1 ds +:+ "e" +:+ sign +:+ digits (Z.abs ex).

(** Number::toString(x, 10). *)
Definition toString (x : number) : string :=
  match x with
  | S754_nan => "NaN"
  | S754_zero _ => "0"
  | S754_infinity neg => if neg then "-Infinity" else "Infinity"
  | S754_finite neg m e =>
      let '(n, k, s) := shortest 17 1 (Zpos m) e (decimal_exponent (Zpos m) e) in
      (if neg then "-" else "") +:+ format_digits n k s
  end.

(** Number.prototype.toFixed(f), for [0 <= f <= 100]. *)
Definition toFixed (f : Z) (x : number) : string :=
  match x with
  | S754_finite neg m e =>
      match cmp_scaled (Zpos m) e 0 1 0 21 with
      | Lt =>
          (* the integer n nearest to x * 10^f, the larger one on a tie *)
          let den := 2 ^ Z.max (- e) 0 in
          let n := (2 * Zpos m * 2 ^ Z.max e 0 * 10 ^ f + den) / (2 * den) in
          let ds := digits n in
          let ds := repeat0 (Z.to_nat (f + 1 - ndigits n)) +:+ ds in
          let k := Z.of_nat (String.length ds) in
          (if neg then "-" else "") +:+
          (if f =? 0 then ds else str_take (k - f) ds +:+ "." +:+ str_drop (k - f) ds)
      | _ => toString x
      end
  | S754_zero _ =>
      if f =? 0 then "0" else "0." +:+ repeat0 (Z.to_nat f)
  | _ => toString x
  end.

(** *** StringToNumber *)

Definition code (c : ascii) : Z := Z.of_nat (nat_of_ascii c).

(** WhiteSpace and LineTerminator code points of one, two and three
    UTF-8 bytes. *)
Definition ws1 (a : Z) : bool :=
  (a =? 9) || (a =? 10) || (a =? 11) || (a =? 12) || (a =? 13) || (a =? 32).
Definition ws2 (a b : Z) : bool := (a =? 194) && (b =? 160).
Definition ws3 (a b c : Z) : bool :=
  ((a =? 225) && (b =? 154) && (c =? 128))
  || ((a =? 226) && (b =? 128)
      && (((128 <=? c) && (c <=? 138)) || (c =? 168) || (c =? 169) || (c =? 175)))
  || ((a =? 226) && (b =? 129) && (c =? 159))
  || ((a =? 227) && (b =? 128) && (c =? 128))
  || ((a =? 239) && (b =? 187) && (c =? 191)).

(** Drops leading white space; with [back], white space read backwards
    (the string is then a reversed one). *)
Fixpoint skip_ws (back : bool) (s : string) : string :=
  match s with
  | String c1 r1 =>
      if ws1 (code c1) then skip_ws back r1
      else
        match r1 with
        | String c2 r2 =>
            if (if back then ws2 (code c2) (code c1) else ws2 (code c1) (code c2))
            then skip_ws back r2
            else
              match r2 with
              | String c3 r3 =>
                  if (if back then ws3 (code c3) (code c2) (code c1)
                      else ws3 (code c1) (code c2) (code c3))
                  then skip_ws back r3
                  else s
              | EmptyString => s
              end
        | EmptyString => s
        end
  | EmptyString => s
  end.

Fixpoint rev_string (s acc : string) : string :=
  match s with
  | EmptyString => acc
  | String c r => rev_string r (String c acc)
  end.

Definition trim (s : string) : string :=
  rev_string (skip_ws true (rev_string (skip_ws false s) "")) "".

Definition digit_value (c : ascii) : option Z :=
  let a := code c in
  if (48 <=? a) && (a <=? 57) then Some (a - 48)
  else if (97 <=? a) && (a <=? 102) then Some (a - 87)
  else if (65 <=? a) && (a <=? 70) then Some (a - 55)
  else None.

(** The longest prefix of digits in [base]: its value, its length and
    what follows. *)
Fixpoint span_digits (base : Z) (s : string) (acc len : Z) : Z * Z * string :=
  match s with
  | String c r =>
      match digit_value c with
      | Some d => if d <? base then span_digits base r (acc * base + d) (len + 1)
                  else (acc, len, s)
      | None => (acc, len, s)
      end
  | EmptyString => (acc, len, s)
  end.

Definition of_scaled (neg : bool) (m q : Z) : number :=
  match m with
  | Zpos p => of_ratio neg (Z.to_pos (m * 10 ^ Z.max q 0)) (Z.to_pos (10 ^ Z.max (- q) 0))
  | _ => S754_zero neg
  end.

Definition non_decimal (base : Z) (s : string) : number :=
  match span_digits base s 0 0 with
  | (v, len, EmptyString) => if 0 <? len then of_Z v else NaN
  | _ => NaN
  end.

Definition exponent_part (s : string) : option Z :=
  match s with
  | EmptyString => Some 0
  | String c r =>
      if (code c =? 101) || (code c =? 69) then
        let '(neg, r') :=
          match r with
          | String "+" t => (false, t)
          | String "-" t => (true, t)
          | _ => (false, r)
          end in
        match span_digits 10 r' 0 0 with
        | (v, len, EmptyString) => if 0 <? len then Some (if neg then - v else v) else None
        | _ => None
        end
      else None
  end.

Definition unsigned_decimal (neg : bool) (s : string) : number :=
  if String.eqb s "Infinity" then S754_infinity neg
  else
    let '(i, ni, r) := span_digits 10 s 0 0 in
    let '(f, nf, r') :=
      match r with
      | String "." t => span_digits 10 t 0 0
      | _ => (0, 0, r)
      end in
    if ni + nf =? 0 then NaN
    else
      match exponent_part r' with
      | Some ex => of_scaled neg (i * 10 ^ nf + f) (ex - nf)
      | None => NaN
      end.

(** StringToNumber: the StringNumericLiteral grammar, its mathematical
    value rounded to the nearest number. *)
Definition StringToNumber (str : string) : number :=
  match trim str with
  | EmptyString => S754_zero false
  | String "0" (String "x" r) | String "0" (String "X" r) => non_decimal 16 r
  | String "0" (String "o" r) | String "0" (String "O" r) => non_decimal 8 r
  | String "0" (String "b" r) | String "0" (String "B" r) => non_decimal 2 r
  | String "+" r => unsigned_decimal false r
  | String "-" r => unsigned_decimal true r
  | s => unsigned_decimal false s
  end.

End JsNumber.

Import JsNumber.

(** ** Values *)

(** The scalar values a field of a parsed JSON document can hold, and
    [undefined] for a property that is absent. *)
Inductive value : Type :=
  | VUndefined
  | VNull
  | VBool (b : bool)
  | VNumber (x : number)
  | VString (s : string).

Definition typeof (v : value) : string :=
  match v with
  | VUndefined => "undefined"
  | VNull => "object"
  | VBool _ => "boolean"
  | VNumber _ => "number"
  | VString _ => "string"
  end.

Definition ToBoolean (v : value) : bool :=
  match v with
  | VUndefined | VNull => false
  | VBool b => b
  | VNumber (S754_zero _) | VNumber S754_nan => false
  | VNumber _ => true
  | VString s => negb (String.eqb s "")
  end.

Definition ToString (v : value) : string :=
  match v with
  | VUndefined => "undefined"
  | VNull => "null"
  | VBool b => if b then "true" else "false"
  | VNumber x => toString x
  | VString s => s
  end.

Definition ToNumber (v : value) : number :=
  match v with
  | VUndefined => NaN
  | VNull => S754_zero false
  | VBool b => if b then of_Z 1 else S754_zero false
  | VNumber x => x
  | VString s => StringToNumber s
  end.

(** [a === b] *)
Definition strict_eq (a b : value) : bool :=
  match a, b with
  | VUndefined, VUndefined | VNull, VNull => true
  | VBool x, VBool y => Bool.eqb x y
  | VNumber x, VNumber y => SFeqb x y
  | VString x, VString y => String.eqb x y
  | _, _ => false
  end.

Definition nullish (v : value) : bool :=
  match v with
  | VUndefined | VNull => true
  | _ => false
  end.

(** [a || b], [!a] and the comparisons with a numeric right operand. *)
Definition or_else (a b : value) : value := if ToBoolean a then a else b.
Definition js_not (a : value) : bool := negb (ToBoolean a).
Definition less_than (a : value) (b : number) : bool := ltb (ToNumber a) b.

(** ** JSON text *)

#[warnings="-register-all"]
Inductive json : Type :=
  | JNull
  | JBool (b : bool)
  | JNumber (x : number)
  | JString (s : string)
  | JArray (items : list json)
  | JObject (members : list (string * json)).

Definition hex (n : Z) : string :=
  substring (Z.to_nat n) 1 "0123456789abcdef".

(** QuoteJSONString, on the bytes of well-formed text. *)
Fixpoint quote_body (s : string) : string :=
  match s with
  | EmptyString => ""
  | String c r =>
      let a := code c in
      (if a =? 8 then BACKSLASH +:+ "b"
       else if a =? 9 then BACKSLASH +:+ "t"
       else if a =? 10 then BACKSLASH +:+ "n"
       else if a =? 12 then BACKSLASH +:+ "f"
       else if a =? 13 then BACKSLASH +:+ "r"
       else if a =? 34 then BACKSLASH +:+ DQUOTE
       else if a =? 92 then BACKSLASH +:+ BACKSLASH
       else if a <? 32 then BACKSLASH +:+ "u00" +:+ hex (a / 16) +:+ hex (a mod 16)
       else String c "") +:+ quote_body r
  end.

Definition quote (s : string) : string := DQUOTE +:+ quote_body s +:+ DQUOTE.

(** JSON.stringify(j, null, gap), [indent] being the current
    indentation; [gap] is empty for the two-argument call. *)
Fixpoint stringify (gap indent : string) (j : json) : string :=
  let inner := indent +:+ gap in
  let wrap (l r : string) (parts : list string) :=
    match parts with
    | [] => l +:+ r
    | _ =>
        if String.eqb gap "" then l +:+ String.concat "," parts +:+ r
        else l +:+ LF +:+ inner +:+ String.concat ("," +:+ LF +:+ inner) parts
               +:+ LF +:+ indent +:+ r
    end in
  match j with
  | JNull => "null"
  | JBool b => if b then "true" else "false"
  | JNumber x =>
      match x with
      | S754_nan | S754_infinity _ => "null"
      | _ => toString x
      end
  | JString s => quote s
  | JArray items => wrap "[" "]" (map (stringify gap inner) items)
  | JObject members =>
      wrap "{" "}"
        (map (fun kv => quote (fst kv) +:+ (if String.eqb gap "" then ":" else ": ")
                          +:+ stringify gap inner (snd kv)) members)
  end.

(** A property whose value is [undefined] is left out of an object. *)
Definition member (k : string) (v : value) : list (string * json) :=
  match v with
  | VUndefined => []
  | VNull => [(k, JNull)]
  | VBool b => [(k, JBool b)]
  | VNumber x => [(k, JNumber x)]
  | VString s => [(k, JString s)]
  end.

Definition lookup_member (k : string) (j : json) : option json :=
  match j with
  | JObject members =>
      snd <$> List.find (fun kv => String.eqb (fst kv) k) members
  | _ => None
  end.

(** ** Device records *)

Module Route.
(** One element of the gateway's [data] array.  [vars] is [None] when
    the property is absent, null or not an object. *)
Record t : Type := mk {
  id : value;
  name : value;
  phone_number : value;
  country : value;
  app_version : value;
  battery : value;
  charging : value;
  last_active_time : value;
  vars : option (gmap string value)
}.

(** [r.vars?.dsl_managed] *)
Definition dsl_managed (r : t) : value :=
  match vars r with
  | Some vs => default VUndefined (vs !! "dsl_managed")
  | None => VUndefined
  end.
End Route.

Module Unhealthy.
(** The object pushed to [unhealthyRoutes]. *)
Record t : Type := mk {
  id : value;
  name : value;
  phone_number : value;
  country : value;
  app_version : value;
  battery : value;
  charging : value;
  last_active_time : value;
  issues : list string
}.

Definition to_json (r : t) : json :=
  JObject (member "id" (id r) ++ member "name" (name r)
           ++ member "phone_number" (phone_number r)
           ++ member "country" (country r)
           ++ member "app_version" (app_version r)
           ++ member "battery" (battery r)
           ++ member "charging" (charging r)
           ++ member "last_active_time" (last_active_time r)
           ++ [("issues", JArray (map JString (issues r)))]).
End Unhealthy.

(** ** The outer world and the effects on it *)

(** A rejection or exception: [error.response] when the upstream
    answered with a failure status, and [error.message]. *)
Record js_error : Type := {
  response : option (Z * string);
  message : string
}.

Definition TypeError (msg : string) : js_error :=
  {| response := None; message := msg |}.

(** What [axios.get] resolved with, as far as the code looks into it. *)
Inductive payload : Type :=
  | NoBody
      (* [response.data] is null or undefined *)
  | Body (data : option (list Route.t)).
      (* [response.data.data]: an array, or anything else *)

Inductive level : Type := Log | Warn | Error.

Inductive console_arg : Type :=
  | Text (s : string)
  | Status (status : Z) (data : string)
      (* the object literal [{ status, data }] *)
  | Thrown (e : js_error).

Inductive event : Type :=
  | Console (lvl : level) (args : list console_arg)
  | Get (url : string) (username : value)
  | Connect
  | Query (text : string) (values : list value)
  | Release
  | PostMessage (channel : value) (text : string)
  | Respond (status : Z) (body : json).

(** Configuration, the owner table, and the answers of the collaborators.
    The [n]-th call of [crypto.randomUUID] yields [randomUUID n]; the
    [n]-th call of [client.query] fails with [query n values] if that is
    an error. *)
Record World : Type := {
  TELERIVET_API_KEY : value;
  TELERIVET_PROJECT_ID : value;
  SLACK_CHANNEL_ID : value;
  routeOwners : gmap string value;
  now : number;
  randomUUID : nat -> string;
  get : string -> js_error + payload;
  connect : option js_error;
  query : nat -> list value -> option js_error;
  postMessage : value -> string -> option js_error
}.

Record Counters : Type := { uuids : nat; queries : nat }.

Inductive outcome (A : Type) : Type :=
  | Returned (a : A)
  | Threw (e : js_error)
  | Exited (exit_code : Z).
Arguments Returned {A} a.
Arguments Threw {A} e.
Arguments Exited {A} exit_code.

(** A computation reads the world, advances the counters and appends to
    the trace. *)
Definition M (A : Type) : Type := World -> Counters -> outcome A * list event * Counters.

Definition ret {A} (a : A) : M A := fun _ c => (Returned a, [], c).

Definition bind {A B} (m : M A) (k : A -> M B) : M B :=
  fun w c =>
    match m w c with
    | (Returned a, t, c') => let '(o, t', c'') := k a w c' in (o, t ++ t', c'')
    | (Threw e, t, c') => (Threw e, t, c')
    | (Exited n, t, c') => (Exited n, t, c')
    end.

Declare Scope js_scope.
Delimit Scope js_scope with js.
Notation "x <- m ;; k" := (bind m (fun x => k))
  (at level 100, m at next level, right associativity) : js_scope.
Notation "m ;; k" := (bind m (fun _ => k))
  (at level 100, right associativity) : js_scope.
Open Scope js_scope.

Definition throw {A} (e : js_error) : M A := fun _ c => (Threw e, [], c).
Definition exit {A} (n : Z) : M A := fun _ c => (Exited n, [], c).
Definition emit (e : event) : M unit := fun _ c => (Returned tt, [e], c).
Definition world : M World := fun w c => (Returned w, [], c).

(** [try { m } catch (err) { h err }] *)
Definition try_catch {A} (m : M A) (h : js_error -> M A) : M A :=
  fun w c =>
    match m w c with
    | (Threw e, t, c') => let '(o, t', c'') := h e w c' in (o, t ++ t', c'')
    | r => r
    end.

(** [try { m } finally { f }]: [f] runs on return and on throw, and an
    abrupt end of [f] replaces the outcome of [m]. *)
Definition try_finally {A} (m : M A) (f : M unit) : M A :=
  fun w c =>
    match m w c with
    | (Exited n, t, c') => (Exited n, t, c')
    | (o, t, c') =>
        match f w c' with
        | (Returned _, t', c'') => (o, t ++ t', c'')
        | (Threw e, t', c'') => (Threw e, t ++ t', c'')
        | (Exited n, t', c'') => (Exited n, t ++ t', c'')
        end
    end.

(** [try { x = m } catch (err) { ... return }]: the caught error or the
    value, for a handler that returns from the enclosing function. *)
Definition attempt {A} (m : M A) : M (js_error + A) :=
  try_catch (a <- m ;; ret (inr a)) (fun e => ret (inl e)).

Definition of_option (o : option js_error) : M unit :=
  match o with
  | Some e => throw e
  | None => ret tt
  end.

Definition console_log (s : string) : M unit := emit (Console Log [Text s]).
Definition console_warn (s : string) : M unit := emit (Console Warn [Text s]).
Definition console_error (args : list console_arg) : M unit := emit (Console Error args).

Definition crypto_randomUUID : M string :=
  fun w c => (Returned (randomUUID w (uuids c)), [],
              {| uuids := S (uuids c); queries := queries c |}).

Definition axios_get (url : string) (username : value) : M payload :=
  emit (Get url username) ;;
  w <- world ;;
  match get w url with
  | inl e => throw e
  | inr p => ret p
  end.

Definition pool_connect : M unit :=
  emit Connect ;; w <- world ;; of_option (connect w).

Definition client_query (text : string) (values : list value) : M unit :=
  emit (Query text values) ;;
  fun w c =>
    of_option (query w (queries c) values) w
      {| uuids := uuids c; queries := S (queries c) |}.

Definition client_release : M unit := emit Release.

Definition chat_postMessage (channel : value) (text : string) : M unit :=
  emit (PostMessage channel text) ;; w <- world ;; of_option (postMessage w channel text).

Definition respond (status : Z) (body : json) : M unit := emit (Respond status body).

Definition run {A} (m : M A) (w : World) : outcome A * list event * Counters :=
  m w {| uuids := 0; queries := 0 |}.

(** ** The cloud function *)

(** Battery thresholds *)
Definition CRITICAL_BATTERY_THRESHOLD : number := of_Z 20.
Definition WARNING_BATTERY_THRESHOLD : number := of_Z 30.

(** [issues.push(x)] *)
Definition push {A} (xs : list A) (x : A) : list A := xs ++ [x].

(** The two checks of the loop body.  The loop of [testTelerivetRoutes]
    has the same two statements, so the script shares them. *)
Definition checkLastActive (now : number) (r : Route.t) (issues : list string) : list string :=
  if js_not (Route.last_active_time r) then push issues "Never reported active"
  else
    let lastActiveMs := mul (ToNumber (Route.last_active_time r)) (of_Z 1000) in
    let minutesAgo := div (sub now lastActiveMs) (of_Z 60000) in
    if gtb minutesAgo (of_Z 1)
    then push issues ("Last active " +:+ toFixed 1 minutesAgo +:+ " minutes ago")
    else issues.

Definition checkBattery (r : Route.t) (issues : list string) : list string :=
  if String.eqb (typeof (Route.battery r)) "number" then
    if less_than (Route.battery r) CRITICAL_BATTERY_THRESHOLD
    then push issues ("Critical battery level (" +:+ ToString (Route.battery r) +:+ "%)")
    else if less_than (Route.battery r) WARNING_BATTERY_THRESHOLD
            && strict_eq (Route.charging r) (VBool false)
    then push issues ("Battery low and not charging (" +:+ ToString (Route.battery r) +:+ "%)")
    else issues
  else issues.

Definition routeIssues (now : number) (r : Route.t) : list string :=
  checkBattery r (checkLastActive now r []).

(** The loop over [routes]: a route with issues is pushed with its
    metadata. *)
Definition unhealthy (r : Route.t) (issues : list string) : Unhealthy.t :=
  {| Unhealthy.id := Route.id r;
     Unhealthy.name := Route.name r;
     Unhealthy.phone_number := Route.phone_number r;
     Unhealthy.country := Route.country r;
     Unhealthy.app_version := Route.app_version r;
     Unhealthy.battery := Route.battery r;
     Unhealthy.charging := Route.charging r;
     Unhealthy.last_active_time := Route.last_active_time r;
     Unhealthy.issues := issues |}.

Fixpoint findUnhealthy (now : number) (routes : list Route.t)
    (unhealthyRoutes : list Unhealthy.t) : list Unhealthy.t :=
  match routes with
  | [] => unhealthyRoutes
  | r :: rest =>
      let issues := routeIssues now r in
      findUnhealthy now rest
        (if (0 <? length issues)%nat then push unhealthyRoutes (unhealthy r issues)
         else unhealthyRoutes)
  end.

(** [Array.isArray(response.data.data) ? response.data.data : []] *)
Definition routes_of (response : payload) : M (list Route.t) :=
  match response with
  | NoBody => throw (TypeError "Cannot read properties of undefined (reading 'data')")
  | Body (Some routes) => ret routes
  | Body None => ret []
  end.

Definition count (n : nat) : json := JNumber (of_Z (Z.of_nat n)).

Definition logError (context : string) (error : js_error) : M unit :=
  (* [!error] does not hold of an error object *)
  match response error with
  | Some (status, data) =>
      console_error [Text ("[" +:+ context +:+ "] Request failed"); Status status data]
  | None =>
      console_error [Text ("[" +:+ context +:+ "]");
                     if String.eqb (message error) "" then Thrown error
                     else Text (message error)]
  end.

Definition INSERT : string :=
  LF +:+ "      INSERT INTO unhealthy_routes_log (" +:+
  LF +:+ "        run_id, route_id, route_name, phone_number, country," +:+
  LF +:+ "        app_version, battery, charging, last_active_time, issues" +:+
  LF +:+ "      )" +:+
  LF +:+ "      VALUES ($1, $2, $3, $4, $5, $6, $7, $8, $9, $10)" +:+
  LF +:+ "    ".

(** The array [values] of one insert. *)
Definition rowValues (runId : string) (safeRouteId : value) (r : Unhealthy.t) : list value :=
  [ VString runId;
    safeRouteId;
    or_else (Unhealthy.name r) VNull;
    or_else (Unhealthy.phone_number r) VNull;
    or_else (Unhealthy.country r) VNull;
    or_else (Unhealthy.app_version r) VNull;
    if String.eqb (typeof (Unhealthy.battery r)) "number" then Unhealthy.battery r else VNull;
    if String.eqb (typeof (Unhealthy.charging r)) "boolean" then Unhealthy.charging r else VNull;
    if String.eqb (typeof (Unhealthy.last_active_time r)) "number"
    then Unhealthy.last_active_time r else VNull;
    VString (stringify "" "" (JArray (map JString (Unhealthy.issues r)))) ].

(** [r.id ?? `unknown-${crypto.randomUUID()}`] *)
Definition safeRouteId (r : Unhealthy.t) : M value :=
  if nullish (Unhealthy.id r)
  then (u <- crypto_randomUUID ;; ret (VString ("unknown-" +:+ u)))
  else ret (Unhealthy.id r).

Fixpoint insertRoutes (unhealthyRoutes : list Unhealthy.t) (runId : string) : M unit :=
  match unhealthyRoutes with
  | [] => ret tt
  | r :: rest =>
      id <- safeRouteId r ;;
      try_catch (client_query INSERT (rowValues runId id r))
        (fun err => logError "DB Insert Error (single route)" err) ;;
      insertRoutes rest runId
  end.

Definition storeUnhealthyRoutes (unhealthyRoutes : list Unhealthy.t) (runId : string) : M unit :=
  if (length unhealthyRoutes =? 0)%nat then ret tt
  else
    pool_connect ;;
    try_finally
      (try_catch (insertRoutes unhealthyRoutes runId)
         (fun err => logError "DB Insert Error (outer)" err))
      client_release.

(** [routeOwners] is a plain object made from a JSON document: a key it
    does not own is looked up in [Object.prototype].  Each inherited
    member is a function, or for [__proto__] the prototype itself; all
    are truthy, and [prototype_member] is the text such a member
    converts to in a template literal. *)
Definition native (name : string) : string :=
  "function " +:+ name +:+ "() { [native code] }".

Definition prototype_member (key : string) : option string :=
  if String.eqb key "constructor" then Some (native "Object")
  else if String.eqb key "__proto__" then Some "[object Object]"
  else if existsb (String.eqb key)
            ["toString"; "toLocaleString"; "valueOf"; "hasOwnProperty";
             "isPrototypeOf"; "propertyIsEnumerable"; "__defineGetter__";
             "__defineSetter__"; "__lookupGetter__"; "__lookupSetter__"]
  then Some (native key)
  else None.

(** [slackId ? `<@${slackId}> ` : ""] for [slackId = routeOwners[key]] *)
Definition mentionOf (owners : gmap string value) (key : string) : string :=
  match owners !! key with
  | Some slackId => if ToBoolean slackId then "<@" +:+ ToString slackId +:+ "> " else ""
  | None =>
      match prototype_member key with
      | Some text => "<@" +:+ text +:+ "> "
      | None => ""
      end
  end.

(** One line of the alert: the callback of [unhealthyRoutes.map]. *)
Definition alertLine (owners : gmap string value) (r : Unhealthy.t) : string :=
  let mention := mentionOf owners (ToString (Unhealthy.name r)) in
  BULLET +:+ " " +:+ mention +:+ ToString (or_else (Unhealthy.name r) (Unhealthy.id r))
  +:+ " (" +:+ ToString (or_else (Unhealthy.phone_number r) (VString "unknown")) +:+ "): "
  +:+ String.concat ", " (Unhealthy.issues r).

Definition alertText (owners : gmap string value) (unhealthyRoutes : list Unhealthy.t)
    (runId : string) : string :=
  let header := "DSL Route Health Check " +:+ EMDASH +:+ " run_id: " +:+ runId +:+ LF
                +:+ "Unhealthy routes detected:" +:+ LF in
  let body := String.concat LF (map (alertLine owners) unhealthyRoutes) in
  header +:+ body.

Definition sendSlackAlert (unhealthyRoutes : list Unhealthy.t) (runId : string) : M unit :=
  w <- world ;;
  (* [slackClient] is an object, hence truthy *)
  if js_not (SLACK_CHANNEL_ID w)
  then console_warn "Slack not configured - skipping Slack alert"
  else
    let messageText := alertText (routeOwners w) unhealthyRoutes runId in
    try_catch
      (chat_postMessage (SLACK_CHANNEL_ID w) messageText ;;
       console_log "Slack alert sent successfully.")
      (fun err => logError "Slack Notification Error" err).

(** [`https://api.telerivet.com/v1/projects/${PROJECT_ID}/phones`] *)
Definition phones_url (projectId : value) : string :=
  "https://api.telerivet.com/v1/projects/" +:+ ToString projectId +:+ "/phones".

Definition monitorDSLRoutes : M unit :=
  w <- world ;;
  let url := phones_url (TELERIVET_PROJECT_ID w) in
  runId <- crypto_randomUUID ;;
  console_log (LF +:+ "====================================") ;;
  console_log ("Run ID " +:+ runId +:+ " started") ;;
  console_log "====================================" ;;
  console_log ("Calling Telerivet API: " +:+ url) ;;
  try_catch
    (fetched <- attempt (axios_get url (TELERIVET_API_KEY w)) ;;
     match fetched with
     | inl err =>
         logError "Telerivet API Error" err ;;
         respond 502 (JObject [("error", JString "Failed to fetch Telerivet routes")])
     | inr response =>
         allRoutes <- routes_of response ;;
         let routes :=
           List.filter (fun r => strict_eq (Route.dsl_managed r) (VBool true)) allRoutes in
         console_log ("Total DSL routes found: " +:+ digits (Z.of_nat (length routes))) ;;
         let unhealthyRoutes := findUnhealthy (now w) routes [] in
         console_log ("Route health summary for run ID: " +:+ runId) ;;
         if (length unhealthyRoutes =? 0)%nat then
           console_log "All routes are healthy." ;;
           respond 200 (JObject [("status", JString "ok");
                                 ("total_routes", count (length routes));
                                 ("unhealthy_count", count 0)])
         else
           console_log ("Unhealthy routes: " +:+ digits (Z.of_nat (length unhealthyRoutes))) ;;
           console_log (stringify "  " "" (JArray (map Unhealthy.to_json unhealthyRoutes))) ;;
           try_catch (storeUnhealthyRoutes unhealthyRoutes runId)
             (fun err => logError "storeUnhealthyRoutes failed" err) ;;
           try_catch (sendSlackAlert unhealthyRoutes runId)
             (fun err => logError "sendSlackAlert failed" err) ;;
           respond 200 (JObject [("status", JString "ok");
                                 ("run_id", JString runId);
                                 ("total_routes", count (length routes));
                                 ("unhealthy_count", count (length unhealthyRoutes));
                                 ("unhealthy_routes",
                                  JArray (map Unhealthy.to_json unhealthyRoutes))])
     end)
    (fun err =>
       logError "Unexpected Error" err ;;
       respond 500 (JObject [("error", JString "Unexpected server error")])).

(** ** The one-shot script, dev/index.js *)

Module Dev.

Definition logError (context : string) (error : js_error) : M unit :=
  match response error with
  | Some (status, data) =>
      console_error [Text ("[" +:+ context +:+ "] Request failed"); Status status data]
  | None =>
      console_error [Text ("[" +:+ context +:+ "]");
                     if String.eqb (message error) "" then Thrown error
                     else Text (message error)]
  end.

Definition alertLine (r : Unhealthy.t) : string :=
  BULLET +:+ " " +:+ ToString (Unhealthy.name r)
  +:+ " (" +:+ ToString (Unhealthy.phone_number r) +:+ "): "
  +:+ String.concat ", " (Unhealthy.issues r).

Definition sendSlackAlert (unhealthyRoutes : list Unhealthy.t) : M unit :=
  w <- world ;;
  let messageText :=
    "DSL Route Health Check" +:+ LF +:+ "Unhealthy routes detected:" +:+ LF
    +:+ String.concat LF (map alertLine unhealthyRoutes) in
  try_catch
    (chat_postMessage (SLACK_CHANNEL_ID w) messageText ;;
     console_log "Slack alert sent successfully.")
    (fun err => logError "Slack Notification Error" err).

Definition testTelerivetRoutes : M unit :=
  try_catch
    (w <- world ;;
     let apiKey := TELERIVET_API_KEY w in
     let projectId := TELERIVET_PROJECT_ID w in
     (if js_not apiKey || js_not projectId then
        console_error
          [Text "Missing TELERIVET_API_KEY or TELERIVET_PROJECT_ID environment variables."] ;;
        exit 1
      else ret tt) ;;
     let url := phones_url projectId in
     console_log ("Calling Telerivet API: " +:+ url) ;;
     fetched <- attempt (axios_get url apiKey) ;;
     match fetched with
     | inl err => logError "Telerivet API Error" err
     | inr response =>
         routes <- routes_of response ;;
         console_log ("Total routes found: " +:+ digits (Z.of_nat (length routes))) ;;
         let unhealthyRoutes := findUnhealthy (now w) routes [] in
         console_log (LF +:+ "====================================") ;;
         console_log "ROUTE HEALTH SUMMARY" ;;
         console_log "====================================" ;;
         if (length unhealthyRoutes =? 0)%nat then
           console_log "All routes are healthy."
         else
           console_log ("Unhealthy routes: " +:+ digits (Z.of_nat (length unhealthyRoutes))) ;;
           console_log (stringify "  " "" (JArray (map Unhealthy.to_json unhealthyRoutes))) ;;
           sendSlackAlert unhealthyRoutes
     end)
    (fun err => logError "Unexpected Error" err).

End Dev.

(** ** Vocabulary of the statements *)

Definition outcome_of {A} (r : outcome A * list event * Counters) : outcome A := fst (fst r).
Definition trace_of {A} (r : outcome A * list event * Counters) : list event := snd (fst r).
Definition counters_of {A} (r : outcome A * list event * Counters) : Counters := snd r.

(** The two battery issues and the staleness issue, as worded by the
    checks. *)
Definition critical (b : number) : string :=
  "Critical battery level (" +:+ toString b +:+ "%)".
Definition low (b : number) : string :=
  "Battery low and not charging (" +:+ toString b +:+ "%)".
Definition stale (minutes : number) : string :=
  "Last active " +:+ toFixed 1 minutes +:+ " minutes ago".

Definition absent_or_zero (v : value) : Prop :=
  v = VUndefined \/ v = VNull \/ exists s, v = VNumber (S754_zero s).

(** [minutesAgo] of the loop body. *)
Definition minutesAgo (now : number) (last_active_time : value) : number :=
  div (sub now (mul (ToNumber last_active_time) (of_Z 1000))) (of_Z 60000).

(** What [logError] prints. *)
Definition logged (context : string) (error : js_error) : event :=
  Console Error
    match response error with
    | Some (status, data) => [Text ("[" +:+ context +:+ "] Request failed"); Status status data]
    | None => [Text ("[" +:+ context +:+ "]");
               if String.eqb (message error) "" then Thrown error else Text (message error)]
    end.

(** The values of the inserts of a trace, in order; its error lines; the
    messages posted; the events on the database. *)
Definition inserted (t : list event) : list (list value) :=
  flat_map (fun e => match e with Query _ values => [values] | _ => [] end) t.

Definition errors (t : list event) : list event :=
  List.filter (fun e => match e with Console Error _ => true | _ => false end) t.

Definition posted (t : list event) : list (value * string) :=
  flat_map (fun e => match e with PostMessage ch text => [(ch, text)] | _ => [] end) t.

Definition database (t : list event) : list event :=
  List.filter (fun e => match e with Connect | Query _ _ | Release => true | _ => false end) t.

(** The events the script may produce. *)
Definition script_event (e : event) : Prop :=
  match e with
  | Console _ _ | Get _ _ | PostMessage _ _ => True
  | _ => False
  end.

(** The route ids the loop of [storeUnhealthyRoutes] computes when [u]
    identifiers were drawn before it, and the rows it inserts. *)
Fixpoint safeRouteIds (w : World) (u : nat) (rs : list Unhealthy.t) : list value :=
  match rs with
  | [] => []
  | r :: rest =>
      if nullish (Unhealthy.id r)
      then VString ("unknown-" +:+ randomUUID w u) :: safeRouteIds w (S u) rest
      else Unhealthy.id r :: safeRouteIds w u rest
  end.

Fixpoint rows (run_id : string) (ids : list value) (rs : list Unhealthy.t)
    : list (list value) :=
  match ids, rs with
  | id :: ids', r :: rs' => rowValues run_id id r :: rows run_id ids' rs'
  | _, _ => []
  end.

(** The errors of the inserts of [rws], the first being query [q]. *)
Fixpoint failures (w : World) (q : nat) (rws : list (list value)) : list js_error :=
  match rws with
  | [] => []
  | values :: rest =>
      match query w q values with
      | Some e => e :: failures w (S q) rest
      | None => failures w (S q) rest
      end
  end.

(** The records of a batch that need a placeholder id. *)
Definition placeholders (rs : list Unhealthy.t) : nat :=
  length (List.filter (fun r => nullish (Unhealthy.id r)) rs).

(** The route id of the [i]-th insert: the record's own, or a
    placeholder made of the next identifier not yet drawn. *)
Definition routeIdAt (w : World) (u : nat) (rs : list Unhealthy.t) (i : nat)
    (r : Unhealthy.t) : value :=
  if nullish (Unhealthy.id r)
  then VString ("unknown-" +:+ randomUUID w (u + placeholders (firstn i rs)))
  else Unhealthy.id r.

(** [v || null] *)
Definition or_null (v : value) : value := if ToBoolean v then v else VNull.

(** The events of [sendSlackAlert] once it posts [text]. *)
Definition delivery (w : World) (text : string) : list event :=
  PostMessage (SLACK_CHANNEL_ID w) text ::
    match postMessage w (SLACK_CHANNEL_ID w) text with
    | Some e => [logged "Slack Notification Error" e]
    | None => [Console Log [Text "Slack alert sent successfully."]]
    end.

(** The events of [sendSlackAlert]. *)
Definition notifying (w : World) (us : list Unhealthy.t) (run_id : string) : list event :=
  if js_not (SLACK_CHANNEL_ID w)
  then [Console Warn [Text "Slack not configured - skipping Slack alert"]]
  else delivery w (alertText (routeOwners w) us run_id).

(** One invocation of the cloud function: its run id, the routes it
    considers, and the pieces of its trace. *)
Definition runId (w : World) : string := randomUUID w 0.

Definition considered (data : option (list Route.t)) : list Route.t :=
  List.filter (fun r => strict_eq (Route.dsl_managed r) (VBool true))
    match data with
    | Some routes => routes
    | None => []
    end.

Definition started : Counters := {| uuids := 1; queries := 0 |}.

Definition preamble (w : World) : list event :=
  let url := phones_url (TELERIVET_PROJECT_ID w) in
  [ Console Log [Text (LF +:+ "====================================")];
    Console Log [Text ("Run ID " +:+ runId w +:+ " started")];
    Console Log [Text "===================================="];
    Console Log [Text ("Calling Telerivet API: " +:+ url)];
    Get url (TELERIVET_API_KEY w) ].

Definition summary (w : World) (data : option (list Route.t)) : list event :=
  let us := findUnhealthy (now w) (considered data) [] in
  [ Console Log [Text ("Total DSL routes found: "
                       +:+ digits (Z.of_nat (length (considered data))))];
    Console Log [Text ("Route health summary for run ID: " +:+ runId w)];
    Console Log [Text ("Unhealthy routes: " +:+ digits (Z.of_nat (length us)))];
    Console Log [Text (stringify "  " "" (JArray (map Unhealthy.to_json us)))] ].

Definition report (w : World) (data : option (list Route.t)) : event :=
  let us := findUnhealthy (now w) (considered data) [] in
  Respond 200 (JObject [("status", JString "ok");
                        ("run_id", JString (runId w));
                        ("total_routes", count (length (considered data)));
                        ("unhealthy_count", count (length us));
                        ("unhealthy_routes", JArray (map Unhealthy.to_json us))]).

(** What persisting contributes to the trace of the cloud function: the
    events of [storeUnhealthyRoutes], and the line the caller logs when
    it threw. *)
Definition persisting (w : World) (us : list Unhealthy.t) : list event :=
  let r := storeUnhealthyRoutes us (runId w) w started in
  trace_of r ++
  match outcome_of r with
  | Threw e => [logged "storeUnhealthyRoutes failed" e]
  | _ => []
  end.

(** One execution of the script. *)
Definition idle : Counters := {| uuids := 0; queries := 0 |}.

Definition fetched (data : option (list Route.t)) : list Route.t :=
  match data with
  | Some routes => routes
  | None => []
  end.

Definition devText (us : list Unhealthy.t) : string :=
  "DSL Route Health Check" +:+ LF +:+ "Unhealthy routes detected:" +:+ LF
  +:+ String.concat LF (map Dev.alertLine us).

(** ** Concrete devices and worlds *)

Definition device (name : string) (battery charging last_active_time managed : value)
    : Route.t :=
  {| Route.id := VString ("PN-" +:+ name);
     Route.name := VString name;
     Route.phone_number := VString "+94770000000";
     Route.country := VString "LK";
     Route.app_version := VNull;
     Route.battery := battery;
     Route.charging := charging;
     Route.last_active_time := last_active_time;
     Route.vars := Some {[ "dsl_managed" := managed ]} |}.

Definition num (z : Z) : value := VNumber (of_Z z).

(** A clock reading, in milliseconds, and the same instant in seconds. *)
Definition clock : number := of_Z 1700000000000.
Definition just_now : value := num 1700000000.

(** The three devices of the scenario, and two more: a healthy one and an
    unmanaged one with no id. *)
Definition fleet : list Route.t :=
  [ device "Router-A" (num 15) (VBool true) just_now (VBool true);
    device "Router-Z" (num 25) (VBool false) just_now (VBool true);
    device "Router-C" (num 80) VUndefined (num 1699999700) (VBool true);
    device "Router-D" (num 80) (VBool true) just_now (VBool true);
    {| Route.id := VNull; Route.name := VString "Router-E";
       Route.phone_number := VUndefined; Route.country := VUndefined;
       Route.app_version := VUndefined; Route.battery := num 5;
       Route.charging := VUndefined; Route.last_active_time := VNull;
       Route.vars := None |} ].

Definition refused : js_error :=
  {| response := None; message := "connect ECONNREFUSED 10.0.0.5:5432" |}.
Definition deadlock : js_error :=
  {| response := None; message := "deadlock detected" |}.
Definition unauthorized : js_error :=
  {| response := Some (401, "Unauthorized");
     message := "Request failed with status code 401" |}.

Definition mkWorld (upstream : js_error + payload) (db : option js_error)
    (insert : nat -> list value -> option js_error) (chat : option js_error) : World :=
  {| TELERIVET_API_KEY := VString "key";
     TELERIVET_PROJECT_ID := VString "PJ1";
     SLACK_CHANNEL_ID := VString "C0123";
     routeOwners := {[ "Router-A" := VString "U123" ]};
     now := clock;
     randomUUID := fun n => "uuid-" +:+ digits (Z.of_nat n);
     get := fun _ => upstream;
     connect := db;
     query := insert;
     postMessage := fun _ _ => chat |}.

Definition all_well : World :=
  mkWorld (inr (Body (Some fleet))) None (fun _ _ => None) None.
Definition second_insert_fails : World :=
  mkWorld (inr (Body (Some fleet))) None
    (fun n _ => if (n =? 1)%nat then Some deadlock else None) None.
Definition database_down : World :=
  mkWorld (inr (Body (Some fleet))) (Some refused) (fun _ _ => None) None.
Definition upstream_down : World :=
  mkWorld (inl unauthorized) None (fun _ _ => None) None.
Definition nothing_wrong : World :=
  mkWorld (inr (Body (Some [device "Router-D" (num 80) (VBool true) just_now (VBool true)])))
    None (fun _ _ => None) None.

(** The unhealthy records of [fleet] among the managed routes. *)
Definition batch : list Unhealthy.t := findUnhealthy clock (considered (Some fleet)) [].

(** An unhealthy record whose display name is a member every object
    inherits. *)
Definition namesake : Unhealthy.t :=
  {| Unhealthy.id := VString "PN-7"; Unhealthy.name := VString "constructor";
     Unhealthy.phone_number := VString "+94770000000"; Unhealthy.country := VNull;
     Unhealthy.app_version := VNull; Unhealthy.battery := VNull;
     Unhealthy.charging := VNull; Unhealthy.last_active_time := VNull;
     Unhealthy.issues := ["Never reported active"] |}.

(** ** Vocabulary of further statements *)

(** A route the loop reports: its issue list is not empty. *)
Definition has_issues (now : number) (r : Route.t) : bool :=
  (0 <? length (routeIssues now r))%nat.

(** The answers and the upstream requests of a trace. *)
Definition responses (t : list event) : list (Z * json) :=
  flat_map (fun e => match e with Respond status body => [(status, body)] | _ => [] end) t.

Definition requests (t : list event) : list string :=
  flat_map (fun e => match e with Get url _ => [url] | _ => [] end) t.

(** The events of the insert loop, and the events that are neither an
    answer nor a request. *)
Definition insert_event (e : event) : Prop :=
  match e with
  | Query _ _ | Console Error _ => True
  | _ => False
  end.

Definition quiet (e : event) : Prop :=
  match e with
  | Respond _ _ | Get _ _ => False
  | _ => True
  end.

(** What the cloud function answers, read off the upstream answer, the
    clock and the first identifier drawn. *)
Definition answer (w : World) : event :=
  match get w (phones_url (TELERIVET_PROJECT_ID w)) with
  | inl _ => Respond 502 (JObject [("error", JString "Failed to fetch Telerivet routes")])
  | inr NoBody => Respond 500 (JObject [("error", JString "Unexpected server error")])
  | inr (Body data) =>
      match findUnhealthy (now w) (considered data) [] with
      | [] => Respond 200 (JObject [("status", JString "ok");
                                   ("total_routes", count (length (considered data)));
                                   ("unhealthy_count", count 0)])
      | _ :: _ => report w data
      end
  end.


(** The table of schemas/tables.sql: [generated] marks the identity
    column and the one with a default. *)
Inductive sql_type : Type := VARCHAR (n : nat) | INT | BIGINT | BOOLEAN | JSONB | TIMESTAMP.

Record column : Type := {
  column_name : string;
  column_type : sql_type;
  not_null : bool;
  generated : bool
}.

Definition unhealthy_routes_log : list column :=
  [ {| column_name := "id"; column_type := BIGINT; not_null := true; generated := true |};
    {| column_name := "run_id"; column_type := VARCHAR 64; not_null := true;
       generated := false |};
    {| column_name := "route_id"; column_type := VARCHAR 64; not_null := true;
       generated := false |};
    {| column_name := "route_name"; column_type := VARCHAR 255; not_null := false;
       generated := false |};
    {| column_name := "phone_number"; column_type := VARCHAR 64; not_null := false;
       generated := false |};
    {| column_name := "country"; column_type := VARCHAR 64; not_null := false;
       generated := false |};
    {| column_name := "app_version"; column_type := VARCHAR 64; not_null := false;
       generated := false |};
    {| column_name := "battery"; column_type := INT; not_null := false; generated := false |};
    {| column_name := "charging"; column_type := BOOLEAN; not_null := false;
       generated := false |};
    {| column_name := "last_active_time"; column_type := BIGINT; not_null := false;
       generated := false |};
    {| column_name := "issues"; column_type := JSONB; not_null := true; generated := false |};
    {| column_name := "created_at"; column_type := TIMESTAMP; not_null := true;
       generated := true |} ].

(** The columns the table does not fill by itself: those the INSERT
    statement names, in the order of its parameters. *)
Definition inserted_columns : list column :=
  List.filter (fun col => negb (generated col)) unhealthy_routes_log.

(** A parameter suits a column when it is null only if the column takes
    null, and otherwise of the column's kind: a number for INT and BIGINT,
    a boolean for BOOLEAN, text for JSONB, anything the driver writes as
    text for VARCHAR.  (Lengths and integrality are not part of it.) *)
Definition suits (col : column) (v : value) : bool :=
  match v with
  | VUndefined | VNull => negb (not_null col)
  | VNumber _ =>
      match column_type col with VARCHAR _ | INT | BIGINT => true | _ => false end
  | VBool _ =>
      match column_type col with VARCHAR _ | BOOLEAN => true | _ => false end
  | VString _ =>
      match column_type col with VARCHAR _ | JSONB => true | _ => false end
  end.

Fixpoint row_suits (cols : list column) (row : list value) : bool :=
  match cols, row with
  | [], [] => true
  | col :: cols', v :: row' => suits col v && row_suits cols' row'
  | _, _ => false
  end.


Definition not_a_list : World := mkWorld (inr (Body None)) None (fun _ _ => None) None.
Definition every_insert_fails : World :=
  mkWorld (inr (Body (Some fleet))) None (fun _ _ => Some deadlock) None.
Definition no_credentials : World :=
  {| TELERIVET_API_KEY := VUndefined;
     TELERIVET_PROJECT_ID := VString "PJ1";
     SLACK_CHANNEL_ID := VString "C0123";
     routeOwners := ∅;
     now := clock;
     randomUUID := fun n => "uuid-" +:+ digits (Z.of_nat n);
     get := fun _ => inr (Body (Some fleet));
     connect := None;
     query := fun _ _ => None;
     postMessage := fun _ _ => None |}.

Ltac explicit_trace :=
  split; [reflexivity |];
  split; [reflexivity |];
  split; [reflexivity |];
  split; [repeat constructor |];
  split; [simpl; lia |].

(** ** Numbers and values *)

Lemma CRITICAL_value : CRITICAL_BATTERY_THRESHOLD = S754_finite false 5629499534213120 (-48).
Proof. reflexivity. Qed.

Lemma WARNING_value : WARNING_BATTERY_THRESHOLD = S754_finite false 8444249301319680 (-48).
Proof. reflexivity. Qed.

(** [x >= a] excludes [x < b] for positive [b <= a] of one exponent,
    whatever [x] is (for NaN neither comparison holds). *)
Lemma leb_lt_finite (x : number) (m1 m2 : positive) (e : Z) :
  (m2 <= m1)%positive ->
  leb (S754_finite false m1 e) x = true ->
  ltb x (S754_finite false m2 e) = false.
Proof.
  intros Hm. unfold leb, ltb, SFleb, SFltb.
  destruct x as [[] | [] | | [] m ex]; simpl; try congruence.
  rewrite (Z.compare_antisym ex e).
  destruct (ex ?= e) eqn:He; simpl; try congruence.
  rewrite !Pos.compare_cont_spec. simpl.
  destruct (Pos.compare_spec m1 m), (Pos.compare_spec m m2); simpl; intros;
    try reflexivity; try discriminate; lia.
Qed.

Lemma at_least_warning (b : number) :
  leb WARNING_BATTERY_THRESHOLD b = true ->
  ltb b CRITICAL_BATTERY_THRESHOLD = false /\ ltb b WARNING_BATTERY_THRESHOLD = false.
Proof.
  intros H. split.
  - apply (leb_lt_finite b 8444249301319680 5629499534213120 (-48)); [lia | exact H].
  - apply (leb_lt_finite b 8444249301319680 8444249301319680 (-48)); [lia | exact H].
Qed.

Lemma at_least_critical (b : number) :
  leb CRITICAL_BATTERY_THRESHOLD b = true -> ltb b CRITICAL_BATTERY_THRESHOLD = false.
Proof.
  intros H.
  apply (leb_lt_finite b 5629499534213120 5629499534213120 (-48)); [lia | exact H].
Qed.

(** [x - x] is zero, or NaN when [x] is not finite. *)
Lemma sub_diag (x : number) :
  sub x x = S754_zero false \/ sub x x = S754_nan.
Proof.
  destruct x as [[] | [] | | s m e]; simpl; auto.
  left. unfold sub, SFsub. rewrite Z.sub_diag. reflexivity.
Qed.

Lemma strict_eq_false (v : value) : strict_eq v (VBool false) = true <-> v = VBool false.
Proof.
  destruct v as [ | | [] | x | s]; simpl; split; intros H; congruence.
Qed.

Lemma not_false_strict (v : value) : v <> VBool false -> strict_eq v (VBool false) = false.
Proof.
  intros Hv. destruct (strict_eq v (VBool false)) eqn:Hs; [| reflexivity].
  apply strict_eq_false in Hs. contradiction.
Qed.

Lemma typeof_number (v : value) :
  String.eqb (typeof v) "number" = true <-> exists b, v = VNumber b.
Proof.
  destruct v; simpl; split; intros H; try discriminate; eauto;
    destruct H as [b' H]; discriminate.
Qed.

(** ** The classifier *)

Lemma checkBattery_app (r : Route.t) (issues : list string) :
  checkBattery r issues = issues ++ checkBattery r [].
Proof.
  unfold checkBattery, push.
  destruct (String.eqb _ _); [destruct (less_than _ _); [| destruct (_ && _)] |];
    simpl; rewrite ?app_nil_r; reflexivity.
Qed.

Lemma routeIssues_app (now : number) (r : Route.t) :
  routeIssues now r = checkLastActive now r [] ++ checkBattery r [].
Proof. unfold routeIssues. apply checkBattery_app. Qed.

Lemma checkBattery_number (r : Route.t) (b : number) :
  Route.battery r = VNumber b ->
  checkBattery r [] =
    if ltb b CRITICAL_BATTERY_THRESHOLD then [critical b]
    else if ltb b WARNING_BATTERY_THRESHOLD && strict_eq (Route.charging r) (VBool false)
         then [low b] else [].
Proof.
  intros Hb. unfold checkBattery, less_than, critical, low, push.
  rewrite Hb. reflexivity.
Qed.

Lemma checkBattery_other (r : Route.t) :
  (forall b, Route.battery r <> VNumber b) -> checkBattery r [] = [].
Proof.
  intros Hnot. unfold checkBattery.
  destruct (String.eqb _ _) eqn:Ht; [| reflexivity].
  apply typeof_number in Ht as [b Hb]. destruct (Hnot b Hb).
Qed.

Lemma checkLastActive_cases (now : number) (r : Route.t) :
  checkLastActive now r [] =
    if js_not (Route.last_active_time r) then ["Never reported active"]
    else if gtb (minutesAgo now (Route.last_active_time r)) (of_Z 1)
         then [stale (minutesAgo now (Route.last_active_time r))]
         else [].
Proof. reflexivity. Qed.

(** The scenario of three devices: critical battery, low battery while
    not charging, and five minutes of silence; the healthy device and the
    unmanaged one are not reported. *)
Example scenario_three_devices :
  map Unhealthy.issues batch
  = [ ["Critical battery level (15%)"];
      ["Battery low and not charging (25%)"];
      ["Last active 5.0 minutes ago"] ].
Proof. vm_compute. reflexivity. Qed.

(** C1: the battery rules run after the staleness rule and only on a
    numeric battery; below 20 the critical issue alone, otherwise below 30
    with [charging] the boolean [false] the low-battery issue alone,
    otherwise nothing; never more than one battery issue. *)
Theorem battery_rules (now : number) (r : Route.t) :
  routeIssues now r = checkLastActive now r [] ++ checkBattery r [] /\
  (length (checkBattery r []) <= 1)%nat /\
  ((forall b, Route.battery r <> VNumber b) -> checkBattery r [] = []) /\
  (forall b, Route.battery r = VNumber b -> ltb b CRITICAL_BATTERY_THRESHOLD = true ->
     checkBattery r [] = [critical b]) /\
  (forall b, Route.battery r = VNumber b -> ltb b CRITICAL_BATTERY_THRESHOLD = false ->
     ltb b WARNING_BATTERY_THRESHOLD = true -> Route.charging r = VBool false ->
     checkBattery r [] = [low b]) /\
  (forall b, Route.battery r = VNumber b -> ltb b CRITICAL_BATTERY_THRESHOLD = false ->
     ltb b WARNING_BATTERY_THRESHOLD = false \/ Route.charging r <> VBool false ->
     checkBattery r [] = []).
Proof.
  split; [apply routeIssues_app |].
  split.
  { unfold checkBattery, push.
    destruct (String.eqb _ _); [destruct (less_than _ _); [| destruct (_ && _)] |];
      simpl; lia. }
  split; [apply checkBattery_other |].
  repeat split; intros b Hb; rewrite (checkBattery_number r b Hb).
  - intros ->. reflexivity.
  - intros -> -> ->. reflexivity.
  - intros -> [-> | Hc]; [reflexivity |].
    rewrite (not_false_strict _ Hc), andb_false_r. reflexivity.
Qed.

(** The rules at 15% while charging, at 25% while not charging, and at
    25% with the charging flag absent. *)
Lemma battery_rules_witness :
  checkBattery (device "Router-A" (num 15) (VBool true) just_now (VBool true)) []
  = ["Critical battery level (15%)"] /\
  checkBattery (device "Router-Z" (num 25) (VBool false) just_now (VBool true)) []
  = ["Battery low and not charging (25%)"] /\
  checkBattery (device "Router-Y" (num 25) VUndefined just_now (VBool true)) [] = [].
Proof.
  split; [| split].
  - destruct (battery_rules clock (device "Router-A" (num 15) (VBool true) just_now (VBool true)))
      as (_ & _ & _ & H & _).
    apply (H (of_Z 15)); reflexivity.
  - destruct (battery_rules clock (device "Router-Z" (num 25) (VBool false) just_now (VBool true)))
      as (_ & _ & _ & _ & H & _).
    apply (H (of_Z 25)); reflexivity.
  - destruct (battery_rules clock (device "Router-Y" (num 25) VUndefined just_now (VBool true)))
      as (_ & _ & _ & _ & _ & H).
    apply (H (of_Z 25)); [reflexivity | reflexivity | right; discriminate].
Defined.

(** C2, as stated, fails: a battery of 15% is below 30 and the device is
    charging, yet the critical issue is produced. *)
Lemma low_battery_charging_is_critical :
  let r := device "Router-A" (num 15) (VBool true) just_now (VBool true) in
  Route.battery r = num 15 /\
  ltb (of_Z 15) WARNING_BATTERY_THRESHOLD = true /\
  Route.charging r <> VBool false /\
  checkBattery r [] = ["Critical battery level (15%)"].
Proof. repeat split; try reflexivity. discriminate. Qed.

(** C2, amended: no battery issue for a battery of at least 30, nor for
    a battery of at least 20 (so from 20 up to 30) whose charging flag is
    not [false]. *)
Theorem no_battery_issue (now : number) (r : Route.t) (b : number) :
  Route.battery r = VNumber b ->
  leb WARNING_BATTERY_THRESHOLD b = true
  \/ (leb CRITICAL_BATTERY_THRESHOLD b = true /\ Route.charging r <> VBool false) ->
  checkBattery r [] = [] /\ routeIssues now r = checkLastActive now r [].
Proof.
  intros Hb H.
  assert (Hnone : checkBattery r [] = []).
  { rewrite (checkBattery_number r b Hb).
    destruct H as [H | [H Hc]].
    - destruct (at_least_warning b H) as [-> ->]. reflexivity.
    - rewrite (at_least_critical b H), (not_false_strict _ Hc), andb_false_r.
      reflexivity. }
  split; [exact Hnone |].
  rewrite routeIssues_app, Hnone. apply app_nil_r.
Qed.

Lemma no_battery_issue_witness :
  checkBattery (device "Router-C" (num 80) VUndefined (num 1699999700) (VBool true)) [] = [] /\
  checkBattery (device "Router-Y" (num 25) (VBool true) just_now (VBool true)) [] = [].
Proof.
  split.
  - apply (no_battery_issue clock _ (of_Z 80)); [reflexivity | left; reflexivity].
  - apply (no_battery_issue clock _ (of_Z 25)); [reflexivity |].
    right. split; [reflexivity | discriminate].
Defined.

(** C3: the staleness rule comes first and yields at most one issue;
    an absent or zero timestamp yields "Never reported active"; any other
    timestamp that is set yields "Last active ... minutes ago", with one
    decimal, exactly when [minutesAgo > 1]; a timestamp of exactly now
    yields nothing, one of two minutes ago "Last active 2.0 minutes ago". *)
Theorem staleness_rule (now : number) (r : Route.t) :
  let v := Route.last_active_time r in
  routeIssues now r = checkLastActive now r [] ++ checkBattery r [] /\
  (length (checkLastActive now r []) <= 1)%nat /\
  (absent_or_zero v -> checkLastActive now r [] = ["Never reported active"]) /\
  (js_not v = false ->
     (gtb (minutesAgo now v) (of_Z 1) = true ->
        checkLastActive now r [] = [stale (minutesAgo now v)]) /\
     (gtb (minutesAgo now v) (of_Z 1) = false -> checkLastActive now r [] = [])) /\
  (js_not v = false -> mul (ToNumber v) (of_Z 1000) = now ->
     checkLastActive now r [] = []) /\
  (js_not v = false -> sub now (mul (ToNumber v) (of_Z 1000)) = of_Z 120000 ->
     checkLastActive now r [] = ["Last active 2.0 minutes ago"]).
Proof.
  intros v. subst v. rewrite checkLastActive_cases.
  split; [apply routeIssues_app |].
  split.
  { destruct (js_not _); [| destruct (gtb _ _)]; simpl; lia. }
  split.
  { intros [-> | [-> | [s ->]]]; reflexivity. }
  split.
  { intros ->. split; intros ->; reflexivity. }
  split.
  - intros -> Hnow. unfold minutesAgo. rewrite Hnow.
    destruct (sub_diag now) as [-> | ->]; reflexivity.
  - intros -> Hago. unfold minutesAgo. rewrite Hago. reflexivity.
Qed.

(** The rule on a device never seen, one seen at this instant, one seen
    two minutes ago and one seen five minutes ago. *)
Lemma staleness_rule_witness :
  checkLastActive clock (device "Router-N" VNull VNull VNull (VBool true)) []
  = ["Never reported active"] /\
  checkLastActive clock (device "Router-D" (num 80) (VBool true) just_now (VBool true)) [] = [] /\
  checkLastActive clock (device "Router-B" VNull VNull (num 1699999880) (VBool true)) []
  = ["Last active 2.0 minutes ago"] /\
  checkLastActive clock (device "Router-C" (num 80) VUndefined (num 1699999700) (VBool true)) []
  = ["Last active 5.0 minutes ago"].
Proof.
  split; [| split; [| split]].
  - destruct (staleness_rule clock (device "Router-N" VNull VNull VNull (VBool true)))
      as (_ & _ & H & _).
    apply H. right. left. reflexivity.
  - destruct (staleness_rule clock (device "Router-D" (num 80) (VBool true) just_now (VBool true)))
      as (_ & _ & _ & _ & H & _).
    apply H; reflexivity.
  - destruct (staleness_rule clock (device "Router-B" VNull VNull (num 1699999880) (VBool true)))
      as (_ & _ & _ & _ & _ & H).
    apply H; reflexivity.
  - destruct (staleness_rule clock
                (device "Router-C" (num 80) VUndefined (num 1699999700) (VBool true)))
      as (_ & _ & _ & H & _).
    destruct (H eq_refl) as [H1 _]. apply H1. reflexivity.
Defined.

(** ** Running computations *)

Lemma bind_run {A B} (m : M A) (k : A -> M B) (w : World) (c : Counters) a t c' :
  m w c = (Returned a, t, c') ->
  bind m k w c = (outcome_of (k a w c'), t ++ trace_of (k a w c'), counters_of (k a w c')).
Proof.
  intros H. unfold bind. rewrite H. destruct (k a w c') as [[o t'] c'']. reflexivity.
Qed.

Lemma logError_run (context : string) (error : js_error) (w : World) (c : Counters) :
  logError context error w c = (Returned tt, [logged context error], c).
Proof.
  unfold logError, logged. destruct (response error) as [[status data] |]; reflexivity.
Qed.

Lemma Dev_logError_run (context : string) (error : js_error) (w : World) (c : Counters) :
  Dev.logError context error w c = (Returned tt, [logged context error], c).
Proof.
  unfold Dev.logError, logged. destruct (response error) as [[status data] |]; reflexivity.
Qed.

(** ** The Persister *)

Lemma safeRouteIds_length (w : World) (u : nat) (rs : list Unhealthy.t) :
  length (safeRouteIds w u rs) = length rs.
Proof.
  revert u. induction rs as [| r rest IH]; intros u; simpl; [reflexivity |].
  destruct (nullish (Unhealthy.id r)); simpl; rewrite IH; reflexivity.
Qed.

Lemma rows_length (run_id : string) (w : World) (u : nat) (rs : list Unhealthy.t) :
  length (rows run_id (safeRouteIds w u rs) rs) = length rs.
Proof.
  revert u. induction rs as [| r rest IH]; intros u; simpl; [reflexivity |].
  destruct (nullish (Unhealthy.id r)); simpl; rewrite IH; reflexivity.
Qed.

Lemma rows_nth (run_id : string) (w : World) (u : nat) (rs : list Unhealthy.t) (i : nat)
    (r : Unhealthy.t) :
  nth_error rs i = Some r ->
  nth_error (rows run_id (safeRouteIds w u rs) rs) i
  = Some (rowValues run_id (routeIdAt w u rs i r) r).
Proof.
  revert u i. induction rs as [| r0 rest IH]; intros u i Hi.
  - destruct i; discriminate.
  - destruct i as [| i'].
    + injection Hi as <-. unfold routeIdAt, placeholders. simpl.
      destruct (nullish (Unhealthy.id r0)); simpl; rewrite ?Nat.add_0_r; reflexivity.
    + simpl in Hi. unfold routeIdAt, placeholders. simpl.
      destruct (nullish (Unhealthy.id r0)) eqn:Hn; simpl; rewrite (IH _ _ Hi);
        unfold routeIdAt, placeholders; rewrite ?Nat.add_succ_r; reflexivity.
Qed.

Lemma placeholders_app (l1 l2 : list Unhealthy.t) :
  placeholders (l1 ++ l2) = (placeholders l1 + placeholders l2)%nat.
Proof. unfold placeholders. rewrite List.filter_app, length_app. reflexivity. Qed.

Lemma firstn_split_at (rs : list Unhealthy.t) (i j : nat) (r : Unhealthy.t) :
  nth_error rs i = Some r -> (i < j)%nat ->
  exists tail, firstn j rs = firstn i rs ++ r :: tail.
Proof.
  revert i j. induction rs as [| r0 rest IH]; intros i j Hi Hij.
  - destruct i; discriminate.
  - destruct j as [| j']; [lia |].
    destruct i as [| i'].
    + injection Hi as <-. exists (firstn j' rest). reflexivity.
    + simpl in Hi. destruct (IH i' j' Hi) as [tail Ht]; [lia |].
      exists tail. simpl. rewrite Ht. reflexivity.
Qed.

Lemma failures_none (w : World) (q : nat) (rws : list (list value)) :
  (forall i values, (i < length rws)%nat -> query w (q + i) values = None) ->
  failures w q rws = [].
Proof.
  revert q. induction rws as [| values rest IH]; intros q Hq; simpl; [reflexivity |].
  specialize (Hq 0%nat values) as H0. rewrite Nat.add_0_r in H0.
  rewrite H0 by (simpl; lia).
  apply IH. intros i vs Hi. replace (S q + i)%nat with (q + S i)%nat by lia.
  apply Hq. simpl. lia.
Qed.

Lemma failures_single (w : World) (q : nat) (rws : list (list value)) (m : nat)
    (e : js_error) :
  (m < length rws)%nat ->
  (forall values, query w (q + m) values = Some e) ->
  (forall i values, (i < length rws)%nat -> i <> m -> query w (q + i) values = None) ->
  failures w q rws = [e].
Proof.
  revert q m. induction rws as [| values rest IH]; intros q m Hm Hfail Hok; simpl in *.
  - lia.
  - destruct m as [| m'].
    + rewrite Nat.add_0_r in Hfail. rewrite Hfail. f_equal.
      apply failures_none. intros i vs Hi. replace (S q + i)%nat with (q + S i)%nat by lia.
      apply Hok; lia.
    + specialize (Hok 0%nat values) as H0. rewrite Nat.add_0_r in H0.
      rewrite H0 by lia.
      apply (IH (S q) m').
      * lia.
      * intros vs. replace (S q + m')%nat with (q + S m')%nat by lia. apply Hfail.
      * intros i vs Hi Hne. replace (S q + i)%nat with (q + S i)%nat by lia.
        apply Hok; lia.
Qed.

(** The loop: it returns, whatever the inserts answer; every record is
    inserted, in order; each failure is logged; nothing else happens. *)
Lemma insertRoutes_run (rs : list Unhealthy.t) (run_id : string) (w : World) (c : Counters) :
  let r := insertRoutes rs run_id w c in
  let rws := rows run_id (safeRouteIds w (uuids c) rs) rs in
  outcome_of r = Returned tt /\
  counters_of r = {| uuids := uuids c + placeholders rs; queries := queries c + length rs |} /\
  inserted (trace_of r) = rws /\
  errors (trace_of r)
  = map (logged "DB Insert Error (single route)") (failures w (queries c) rws) /\
  database (trace_of r) = map (Query INSERT) rws /\
  posted (trace_of r) = [].
Proof.
  revert c. induction rs as [| r0 rest IH]; intros c; cbn zeta.
  - simpl. repeat split; try reflexivity.
    destruct c; unfold placeholders; simpl. f_equal; lia.
  - cbn [insertRoutes].
    set (sid := if nullish (Unhealthy.id r0)
                then VString ("unknown-" +:+ randomUUID w (uuids c)) else Unhealthy.id r0).
    set (c1 := {| uuids := if nullish (Unhealthy.id r0) then S (uuids c) else uuids c;
                  queries := queries c |}).
    assert (Hsid : safeRouteId r0 w c = (Returned sid, [], c1)).
    { unfold safeRouteId, sid, c1. destruct (nullish (Unhealthy.id r0)).
      - reflexivity.
      - destruct c; reflexivity. }
    rewrite (bind_run _ _ w c _ _ _ Hsid).
    set (c2 := {| uuids := uuids c1; queries := S (queries c1) |}).
    set (vs := rowValues run_id sid r0).
    assert (Hq : try_catch (client_query INSERT vs)
                   (fun err => logError "DB Insert Error (single route)" err) w c1
                 = (Returned tt,
                    Query INSERT vs ::
                      match query w (queries c) vs with
                      | Some e => [logged "DB Insert Error (single route)" e]
                      | None => []
                      end, c2)).
    { unfold try_catch, client_query, bind, emit, of_option, throw, ret. simpl.
      change (queries c1) with (queries c).
      destruct (query w (queries c) vs) as [e |]; simpl.
      - rewrite logError_run. reflexivity.
      - reflexivity. }
    rewrite (bind_run _ _ w c1 _ _ _ Hq).
    specialize (IH c2). cbn zeta in IH.
    destruct IH as (Ho & Hc & Hi & He & Hd & Hp).
    unfold outcome_of, trace_of, counters_of in *. cbn [fst snd].
    destruct (insertRoutes rest run_id w c2) as [[o t] c3]. cbn [fst snd] in *.
    subst o c3.
    assert (Hu : uuids c2 = if nullish (Unhealthy.id r0) then S (uuids c) else uuids c)
      by reflexivity.
    assert (Hqq : queries c2 = S (queries c)) by reflexivity.
    rewrite Hu, Hqq in *.
    split; [reflexivity |]. split.
    { unfold placeholders. simpl. destruct (nullish (Unhealthy.id r0)); simpl; f_equal; lia. }
    assert (Hrows : rows run_id (safeRouteIds w (uuids c) (r0 :: rest)) (r0 :: rest)
                    = vs :: rows run_id
                              (safeRouteIds w
                                 (if nullish (Unhealthy.id r0) then S (uuids c) else uuids c)
                                 rest) rest).
    { simpl. unfold vs, sid. destruct (nullish (Unhealthy.id r0)); reflexivity. }
    rewrite Hrows. simpl.
    destruct (query w (queries c) vs) as [e |]; simpl;
      rewrite ?Hi, ?He, ?Hd, ?Hp; repeat split; reflexivity.
Qed.

(** An empty batch: no connection, no insert. *)
Lemma store_empty (run_id : string) (w : World) (c : Counters) :
  storeUnhealthyRoutes [] run_id w c = (Returned tt, [], c).
Proof. reflexivity. Qed.

Lemma store_connect_failed (rs : list Unhealthy.t) (run_id : string) (w : World)
    (c : Counters) (e : js_error) :
  rs <> [] -> connect w = Some e ->
  storeUnhealthyRoutes rs run_id w c = (Threw e, [Connect], c).
Proof.
  intros Hrs He. destruct rs as [| r rest]; [contradiction |].
  unfold storeUnhealthyRoutes, pool_connect, bind, emit, world, of_option. simpl.
  rewrite He. reflexivity.
Qed.

Lemma store_connected (rs : list Unhealthy.t) (run_id : string) (w : World) (c : Counters) :
  rs <> [] -> connect w = None ->
  storeUnhealthyRoutes rs run_id w c
  = (Returned tt, Connect :: trace_of (insertRoutes rs run_id w c) ++ [Release],
     counters_of (insertRoutes rs run_id w c)).
Proof.
  intros Hrs He. destruct rs as [| r rest]; [contradiction |].
  destruct (insertRoutes_run (r :: rest) run_id w c) as (Ho & _).
  unfold storeUnhealthyRoutes, pool_connect, try_finally, try_catch, client_release.
  unfold bind, emit, world, of_option, ret. cbn [length Nat.eqb]. rewrite He.
  unfold outcome_of, trace_of, counters_of in *.
  destruct (insertRoutes (r :: rest) run_id w c) as [[o t] c']. cbn [fst snd] in *.
  subst o. reflexivity.
Qed.

Lemma store_never_exits (us : list Unhealthy.t) (run_id : string) (w : World)
    (c : Counters) (n : Z) :
  outcome_of (storeUnhealthyRoutes us run_id w c) <> Exited n.
Proof.
  destruct us as [| r rest]; [discriminate |].
  destruct (connect w) as [e |] eqn:He.
  - rewrite (store_connect_failed (r :: rest) run_id w c e) by (discriminate || exact He).
    discriminate.
  - rewrite (store_connected (r :: rest) run_id w c) by (discriminate || exact He).
    discriminate.
Qed.

(** ** The Notifier *)

Lemma sendSlackAlert_run (us : list Unhealthy.t) (run_id : string) (w : World)
    (c : Counters) :
  sendSlackAlert us run_id w c = (Returned tt, notifying w us run_id, c).
Proof.
  unfold sendSlackAlert, notifying, delivery, bind, world. cbn iota beta.
  destruct (js_not (SLACK_CHANNEL_ID w)); [reflexivity |].
  unfold try_catch, chat_postMessage, bind, emit, world, of_option, console_log, emit.
  cbn iota beta.
  destruct (postMessage w _ _) as [e |]; cbn.
  - rewrite logError_run. reflexivity.
  - reflexivity.
Qed.

Lemma Dev_sendSlackAlert_run (us : list Unhealthy.t) (w : World) (c : Counters) :
  Dev.sendSlackAlert us w c = (Returned tt, delivery w (devText us), c).
Proof.
  unfold Dev.sendSlackAlert, devText, delivery, bind, world. cbn iota beta.
  unfold try_catch, chat_postMessage, bind, emit, world, of_option, console_log, emit.
  cbn iota beta.
  destruct (postMessage w _ _) as [e |]; cbn.
  - rewrite Dev_logError_run. reflexivity.
  - reflexivity.
Qed.

Lemma last_app_nonempty {A} (l l' : list A) (d : A) :
  l' <> [] -> List.last (l ++ l') d = List.last l' d.
Proof.
  intros Hne. induction l as [| x l IH]; [reflexivity |].
  simpl. rewrite IH. destruct (l ++ l') eqn:E; [| reflexivity].
  apply app_eq_nil in E as [_ E]. contradiction.
Qed.

Lemma posted_app (t1 t2 : list event) : posted (t1 ++ t2) = posted t1 ++ posted t2.
Proof. apply flat_map_app. Qed.

Lemma delivery_events (w : World) (text : string) :
  Forall script_event (delivery w text) /\
  database (delivery w text) = [] /\
  posted (delivery w text) = [(SLACK_CHANNEL_ID w, text)].
Proof.
  unfold delivery. destruct (postMessage w _ _) as [e |]; repeat split;
    repeat constructor.
Qed.

Lemma mention_listed (owners : gmap string value) (name target : string) :
  owners !! name = Some (VString target) -> target <> "" ->
  mentionOf owners name = "<@" +:+ target +:+ "> ".
Proof.
  intros Hlookup Hne. unfold mentionOf. rewrite Hlookup. simpl.
  destruct (String.eqb_spec target ""); [contradiction | reflexivity].
Qed.

Lemma mention_unlisted (owners : gmap string value) (name : string) :
  owners !! name = None -> prototype_member name = None ->
  mentionOf owners name = "".
Proof. intros Hlookup Hproto. unfold mentionOf. rewrite Hlookup, Hproto. reflexivity. Qed.

Lemma mention_inherited (owners : gmap string value) (name text : string) :
  owners !! name = None -> prototype_member name = Some text ->
  mentionOf owners name = "<@" +:+ text +:+ "> ".
Proof. intros Hlookup Hproto. unfold mentionOf. rewrite Hlookup, Hproto. reflexivity. Qed.

(** With a channel configured, one message is posted: the header naming
    the run, then one line per record in input order; a failed delivery is
    logged and the function returns all the same. *)
Lemma alert_message (us : list Unhealthy.t) (run_id : string) (w : World) (c : Counters) :
  js_not (SLACK_CHANNEL_ID w) = false ->
  let header := "DSL Route Health Check " +:+ EMDASH +:+ " run_id: " +:+ run_id +:+ LF
                +:+ "Unhealthy routes detected:" +:+ LF in
  let text := header +:+ String.concat LF (map (alertLine (routeOwners w)) us) in
  sendSlackAlert us run_id w c
  = (Returned tt,
     PostMessage (SLACK_CHANNEL_ID w) text ::
       match postMessage w (SLACK_CHANNEL_ID w) text with
       | Some e => [logged "Slack Notification Error" e]
       | None => [Console Log [Text "Slack alert sent successfully."]]
       end,
     c) /\
  posted (trace_of (sendSlackAlert us run_id w c)) = [(SLACK_CHANNEL_ID w, text)].
Proof.
  intros Hch header text. rewrite sendSlackAlert_run. unfold notifying. rewrite Hch.
  split; [reflexivity |]. apply delivery_events.
Qed.

(** A record named after a device the table lists is mentioned; one whose
    name the table does not list, and no object inherits, is not. *)
Lemma alert_line (owners : gmap string value) (r : Unhealthy.t) (name : string) :
  Unhealthy.name r = VString name -> name <> "" ->
  let rest := name +:+ " ("
              +:+ ToString (or_else (Unhealthy.phone_number r) (VString "unknown"))
              +:+ "): " +:+ String.concat ", " (Unhealthy.issues r) in
  (forall target, owners !! name = Some (VString target) -> target <> "" ->
     alertLine owners r = BULLET +:+ " " +:+ ("<@" +:+ target +:+ "> ") +:+ rest) /\
  (owners !! name = None -> prototype_member name = None ->
     alertLine owners r = BULLET +:+ " " +:+ rest).
Proof.
  intros Hname Hne rest. subst rest. unfold alertLine. rewrite Hname.
  assert (Hor : or_else (VString name) (Unhealthy.id r) = VString name).
  { unfold or_else. simpl. destruct (String.eqb_spec name ""); [contradiction | reflexivity]. }
  rewrite Hor. cbn [ToString]. split.
  - intros target Hl Ht. rewrite (mention_listed owners name target Hl Ht). reflexivity.
  - intros Hl Hp. rewrite (mention_unlisted owners name Hl Hp). reflexivity.
Qed.

(** ** The Run Coordinator *)

Lemma monitor_fetch_failed (w : World) (e : js_error) :
  get w (phones_url (TELERIVET_PROJECT_ID w)) = inl e ->
  run monitorDSLRoutes w
  = (Returned tt,
     preamble w ++
     [ logged "Telerivet API Error" e;
       Respond 502 (JObject [("error", JString "Failed to fetch Telerivet routes")]) ],
     started).
Proof.
  intros Hget.
  unfold run, monitorDSLRoutes, attempt, axios_get, try_catch, bind, world,
    crypto_randomUUID, console_log, emit, respond, ret, throw.
  cbn iota beta. rewrite Hget. cbn iota beta. rewrite logError_run. reflexivity.
Qed.

(** The payload has no body: reading [response.data.data] throws, and the
    outermost handler answers 500. *)
Lemma monitor_unexpected (w : World) :
  get w (phones_url (TELERIVET_PROJECT_ID w)) = inr NoBody ->
  run monitorDSLRoutes w
  = (Returned tt,
     preamble w ++
     [ logged "Unexpected Error"
         (TypeError "Cannot read properties of undefined (reading 'data')");
       Respond 500 (JObject [("error", JString "Unexpected server error")]) ],
     started).
Proof.
  intros Hget.
  unfold run, monitorDSLRoutes, attempt, axios_get, try_catch, bind, world,
    crypto_randomUUID, console_log, emit, respond, ret, throw.
  cbn iota beta. rewrite Hget. cbn iota beta. cbn [routes_of]. unfold throw.
  cbn iota beta. rewrite logError_run. reflexivity.
Qed.

Lemma monitor_healthy (w : World) (data : option (list Route.t)) :
  get w (phones_url (TELERIVET_PROJECT_ID w)) = inr (Body data) ->
  findUnhealthy (now w) (considered data) [] = [] ->
  run monitorDSLRoutes w
  = (Returned tt,
     preamble w ++
     [ Console Log [Text ("Total DSL routes found: "
                          +:+ digits (Z.of_nat (length (considered data))))];
       Console Log [Text ("Route health summary for run ID: " +:+ runId w)];
       Console Log [Text "All routes are healthy."];
       Respond 200 (JObject [("status", JString "ok");
                             ("total_routes", count (length (considered data)));
                             ("unhealthy_count", count 0)]) ],
     started).
Proof.
  intros Hget Hnone.
  unfold run, monitorDSLRoutes, attempt, axios_get, try_catch, bind, world,
    crypto_randomUUID, console_log, emit, respond, ret, throw.
  cbn iota beta. rewrite Hget. cbn iota beta.
  unfold considered in Hnone.
  destruct data as [routes |]; cbn [routes_of]; unfold ret; cbn iota beta;
    rewrite Hnone; reflexivity.
Qed.

(** A payload whose [data] is not a list counts as no route at all. *)
Lemma non_list_payload_counts_zero (w : World) :
  get w (phones_url (TELERIVET_PROJECT_ID w)) = inr (Body None) ->
  List.last (trace_of (run monitorDSLRoutes w)) Connect
  = Respond 200 (JObject [("status", JString "ok");
                          ("total_routes", count 0);
                          ("unhealthy_count", count 0)]).
Proof.
  intros Hget. rewrite (monitor_healthy w None Hget eq_refl).
  unfold trace_of. cbn [fst snd].
  rewrite last_app_nonempty by discriminate. reflexivity.
Qed.

Lemma monitor_unhealthy (w : World) (data : option (list Route.t)) :
  let us := findUnhealthy (now w) (considered data) [] in
  get w (phones_url (TELERIVET_PROJECT_ID w)) = inr (Body data) ->
  us <> [] ->
  run monitorDSLRoutes w
  = (Returned tt,
     preamble w ++ summary w data ++ persisting w us ++ notifying w us (runId w)
     ++ [report w data],
     counters_of (storeUnhealthyRoutes us (runId w) w started)).
Proof.
  intros us Hget Hsome.
  pose proof (store_never_exits us (runId w) w started) as Hne.
  unfold persisting.
  unfold run, monitorDSLRoutes, attempt, axios_get, try_catch, bind, world,
    crypto_randomUUID, console_log, emit, respond, ret, throw.
  cbn iota beta. rewrite Hget. cbn iota beta.
  assert (Hr : routes_of (Body data) w {| uuids := 1; queries := 0 |}
               = (Returned match data with Some routes => routes | None => [] end, [],
                  started)).
  { destruct data; reflexivity. }
  cbn [uuids queries]. rewrite Hr. cbn iota beta.
  fold (considered data). fold us. fold (runId w). fold started.
  destruct us as [| u0 rest] eqn:Hus; [contradiction |].
  cbn [length Nat.eqb].
  unfold outcome_of, trace_of, counters_of in *.
  destruct (storeUnhealthyRoutes (u0 :: rest) (runId w) w started) as [[o t] c1].
  cbn [fst snd] in *.
  destruct o as [[] | e | n]; cbn iota beta.
  - rewrite sendSlackAlert_run. unfold emit. cbn iota beta.
    unfold summary, report. fold us. rewrite Hus. cbn [length]. rewrite !app_nil_r.
    rewrite <- ?app_assoc. reflexivity.
  - rewrite logError_run. cbn iota beta. rewrite sendSlackAlert_run.
    unfold emit. cbn iota beta.
    unfold summary, report. fold us. rewrite Hus. cbn [length].
    rewrite <- ?app_assoc. reflexivity.
  - destruct (Hne n). reflexivity.
Qed.

Lemma Dev_run (w : World) :
  let url := phones_url (TELERIVET_PROJECT_ID w) in
  let calling := [ Console Log [Text ("Calling Telerivet API: " +:+ url)];
                   Get url (TELERIVET_API_KEY w) ] in
  run Dev.testTelerivetRoutes w =
    if js_not (TELERIVET_API_KEY w) || js_not (TELERIVET_PROJECT_ID w)
    then (Exited 1,
          [Console Error
             [Text "Missing TELERIVET_API_KEY or TELERIVET_PROJECT_ID environment variables."]],
          idle)
    else
      match get w url with
      | inl e => (Returned tt, calling ++ [logged "Telerivet API Error" e], idle)
      | inr NoBody =>
          (Returned tt,
           calling ++ [logged "Unexpected Error"
                         (TypeError "Cannot read properties of undefined (reading 'data')")],
           idle)
      | inr (Body data) =>
          let us := findUnhealthy (now w) (fetched data) [] in
          (Returned tt,
           calling ++
           [ Console Log [Text ("Total routes found: "
                                +:+ digits (Z.of_nat (length (fetched data))))];
             Console Log [Text (LF +:+ "====================================")];
             Console Log [Text "ROUTE HEALTH SUMMARY"];
             Console Log [Text "===================================="] ] ++
           match us with
           | [] => [Console Log [Text "All routes are healthy."]]
           | _ :: _ =>
               [ Console Log [Text ("Unhealthy routes: " +:+ digits (Z.of_nat (length us)))];
                 Console Log [Text (stringify "  " "" (JArray (map Unhealthy.to_json us)))] ]
               ++ delivery w (devText us)
           end,
           idle)
      end.
Proof.
  intros url calling.
  unfold run, Dev.testTelerivetRoutes, attempt, axios_get, try_catch, bind, world,
    console_log, console_error, emit, ret, throw, exit.
  cbn iota beta.
  destruct (js_not (TELERIVET_API_KEY w) || js_not (TELERIVET_PROJECT_ID w));
    cbn iota beta; [reflexivity |].
  fold url. destruct (get w url) as [e | [| data]]; cbn iota beta.
  - rewrite Dev_logError_run. reflexivity.
  - cbn [routes_of]. unfold throw. cbn iota beta. rewrite Dev_logError_run. reflexivity.
  - assert (Hr : forall c, routes_of (Body data) w c = (Returned (fetched data), [], c)).
    { intros c. destruct data; reflexivity. }
    rewrite Hr. cbn iota beta.
    destruct (findUnhealthy (now w) (fetched data) []) as [| u0 rest] eqn:Hus.
    + reflexivity.
    + cbn [length Nat.eqb]. rewrite Dev_sendSlackAlert_run. reflexivity.
Qed.

(** ** Failure isolation *)

(** C4: in a non-empty batch where one insert fails and the others
    succeed, every record is still inserted, in order, the one failure is
    logged, the Persister returns, the connection is released last, and
    the cloud function goes on to the Notifier and answers. *)
Theorem partial_insert_failure (rs : list Unhealthy.t) (run_id : string) (w : World)
    (c : Counters) (m : nat) (e : js_error) :
  rs <> [] ->
  connect w = None ->
  (m < length rs)%nat ->
  (forall values, query w (queries c + m) values = Some e) ->
  (forall i values, (i < length rs)%nat -> i <> m -> query w (queries c + i) values = None) ->
  exists ti c',
    storeUnhealthyRoutes rs run_id w c = (Returned tt, Connect :: ti ++ [Release], c') /\
    inserted ti = rows run_id (safeRouteIds w (uuids c) rs) rs /\
    length (inserted ti) = length rs /\
    database ti = map (Query INSERT) (inserted ti) /\
    errors ti = [logged "DB Insert Error (single route)" e] /\
    posted ti = [] /\
    forall data,
      get w (phones_url (TELERIVET_PROJECT_ID w)) = inr (Body data) ->
      findUnhealthy (now w) (considered data) [] = rs ->
      run_id = runId w -> c = started ->
      run monitorDSLRoutes w
      = (Returned tt,
         preamble w ++ summary w data ++ (Connect :: ti ++ [Release])
         ++ notifying w rs run_id ++ [report w data],
         c').
Proof.
  intros Hrs Hconn Hm Hfail Hok.
  pose proof (store_connected rs run_id w c Hrs Hconn) as Hstore.
  destruct (insertRoutes_run rs run_id w c) as (_ & _ & Hins & Herr & Hdb & Hpost).
  exists (trace_of (insertRoutes rs run_id w c)), (counters_of (insertRoutes rs run_id w c)).
  split; [exact Hstore |].
  split; [exact Hins |].
  split; [rewrite Hins; apply rows_length |].
  split; [rewrite Hdb, Hins; reflexivity |].
  split.
  { rewrite Herr.
    rewrite (failures_single w (queries c) _ m e); [reflexivity | | exact Hfail |].
    - rewrite rows_length. exact Hm.
    - intros i vs Hi. apply Hok. rewrite rows_length in Hi. exact Hi. }
  split; [exact Hpost |].
  intros data Hget Hus -> ->.
  rewrite (monitor_unhealthy w data Hget) by (rewrite Hus; exact Hrs).
  unfold persisting. rewrite Hus, Hstore.
  unfold outcome_of, trace_of, counters_of. cbn [fst snd]. rewrite app_nil_r.
  reflexivity.
Qed.

(** Three unhealthy records, the second insert hitting a deadlock: three
    inserts, one logged error, and the alert is posted. *)
Lemma partial_insert_failure_witness :
  exists ti c',
    storeUnhealthyRoutes batch "uuid-0" second_insert_fails started
    = (Returned tt, Connect :: ti ++ [Release], c') /\
    length (inserted ti) = 3%nat /\
    errors ti = [Console Error [Text "[DB Insert Error (single route)]";
                                Text "deadlock detected"]] /\
    length (posted (trace_of (run monitorDSLRoutes second_insert_fails))) = 1%nat.
Proof.
  destruct (partial_insert_failure batch "uuid-0" second_insert_fails started 1 deadlock)
    as (ti & c' & Hstore & _ & Hlen & _ & Herr & Hpost & Hrun).
  - vm_compute. discriminate.
  - reflexivity.
  - vm_compute. lia.
  - intros values. reflexivity.
  - intros i values Hi Hne. change (length batch) with 3%nat in Hi.
    destruct i as [| [| i]]; [reflexivity | contradiction | reflexivity].
  - exists ti, c'. split; [exact Hstore |]. split; [exact Hlen |]. split; [exact Herr |].
    rewrite (Hrun (Some fleet) eq_refl eq_refl eq_refl eq_refl).
    unfold trace_of. cbn [fst snd].
    change (Connect :: ti ++ [Release]) with ([Connect] ++ ti ++ [Release]).
    rewrite !posted_app, Hpost. vm_compute. reflexivity.
Defined.

(** C5, as stated, fails: when the pool cannot hand out a connection the
    Persister neither catches nor logs; it throws to its caller. *)
Lemma persister_throws_when_pool_is_down :
  connect database_down = Some refused /\
  outcome_of (storeUnhealthyRoutes batch "uuid-0" database_down started) = Threw refused /\
  trace_of (storeUnhealthyRoutes batch "uuid-0" database_down started) = [Connect].
Proof. vm_compute. repeat split. Qed.

(** C5, amended: a failure to acquire the connection leaves the
    Persister as an exception, with nothing inserted, logged or released;
    the caller catches it, logs it, runs the Notifier and answers. *)
Theorem connection_failure_propagates (rs : list Unhealthy.t) (run_id : string)
    (w : World) (c : Counters) (e : js_error) :
  rs <> [] ->
  connect w = Some e ->
  storeUnhealthyRoutes rs run_id w c = (Threw e, [Connect], c) /\
  forall data,
    get w (phones_url (TELERIVET_PROJECT_ID w)) = inr (Body data) ->
    findUnhealthy (now w) (considered data) [] = rs ->
    run_id = runId w -> c = started ->
    run monitorDSLRoutes w
    = (Returned tt,
       preamble w ++ summary w data
       ++ [Connect; logged "storeUnhealthyRoutes failed" e]
       ++ notifying w rs run_id ++ [report w data],
       started).
Proof.
  intros Hrs Hconn.
  pose proof (store_connect_failed rs run_id w c e Hrs Hconn) as Hstore.
  split; [exact Hstore |].
  intros data Hget Hus -> ->.
  rewrite (monitor_unhealthy w data Hget) by (rewrite Hus; exact Hrs).
  unfold persisting. rewrite Hus, Hstore.
  reflexivity.
Qed.

Lemma connection_failure_propagates_witness :
  storeUnhealthyRoutes batch "uuid-0" database_down started
  = (Threw refused, [Connect], started) /\
  errors (trace_of (run monitorDSLRoutes database_down))
  = [Console Error [Text "[storeUnhealthyRoutes failed]";
                    Text "connect ECONNREFUSED 10.0.0.5:5432"]] /\
  length (posted (trace_of (run monitorDSLRoutes database_down))) = 1%nat /\
  outcome_of (run monitorDSLRoutes database_down) = Returned tt.
Proof.
  destruct (connection_failure_propagates batch "uuid-0" database_down started refused)
    as (Hstore & Hrun).
  - vm_compute. discriminate.
  - reflexivity.
  - split; [exact Hstore |].
    rewrite (Hrun (Some fleet) eq_refl eq_refl eq_refl eq_refl).
    vm_compute. repeat split.
Defined.

(** C6: when the upstream request fails the run stops there: the failure
    is logged and answered with 502 and an error body; nothing touches the
    database, nothing is posted, and the answer depends on no record.  The
    script stops after logging the failure as well. *)
Theorem fetch_failure_short_circuits (w : World) (e : js_error) :
  get w (phones_url (TELERIVET_PROJECT_ID w)) = inl e ->
  let r := run monitorDSLRoutes w in
  r = (Returned tt,
       preamble w ++
       [ logged "Telerivet API Error" e;
         Respond 502 (JObject [("error", JString "Failed to fetch Telerivet routes")]) ],
       started) /\
  database (trace_of r) = [] /\
  posted (trace_of r) = [] /\
  (js_not (TELERIVET_API_KEY w) || js_not (TELERIVET_PROJECT_ID w) = false ->
   run Dev.testTelerivetRoutes w
   = (Returned tt,
      [ Console Log [Text ("Calling Telerivet API: "
                           +:+ phones_url (TELERIVET_PROJECT_ID w))];
        Get (phones_url (TELERIVET_PROJECT_ID w)) (TELERIVET_API_KEY w);
        logged "Telerivet API Error" e ],
      idle)).
Proof.
  intros Hget r. subst r. rewrite (monitor_fetch_failed w e Hget).
  split; [reflexivity |]. split; [reflexivity |]. split; [reflexivity |].
  intros Hcreds. rewrite (Dev_run w). cbn zeta. rewrite Hcreds, Hget. reflexivity.
Qed.

Lemma fetch_failure_short_circuits_witness :
  List.last (trace_of (run monitorDSLRoutes upstream_down)) Connect
  = Respond 502 (JObject [("error", JString "Failed to fetch Telerivet routes")]) /\
  errors (trace_of (run monitorDSLRoutes upstream_down))
  = [Console Error [Text "[Telerivet API Error] Request failed"; Status 401 "Unauthorized"]] /\
  database (trace_of (run monitorDSLRoutes upstream_down)) = [] /\
  posted (trace_of (run monitorDSLRoutes upstream_down)) = [].
Proof.
  destruct (fetch_failure_short_circuits upstream_down unauthorized eq_refl)
    as (Hrun & Hdb & Hpost & _).
  split; [| split; [| split; [exact Hdb | exact Hpost]]].
  - rewrite Hrun. reflexivity.
  - rewrite Hrun. reflexivity.
Defined.

(** ** Outcomes *)

(** Both answers of a run that fetched its routes carry status 200, the
    number of routes considered after the filter on [dsl_managed], and
    the number of unhealthy ones; the one that found unhealthy routes
    carries the run id and the list as well. *)
Lemma successful_outcomes (w : World) (data : option (list Route.t)) :
  get w (phones_url (TELERIVET_PROJECT_ID w)) = inr (Body data) ->
  let us := findUnhealthy (now w) (considered data) [] in
  exists body,
    List.last (trace_of (run monitorDSLRoutes w)) Connect = Respond 200 body /\
    lookup_member "total_routes" body = Some (count (length (considered data))) /\
    lookup_member "unhealthy_count" body = Some (count (length us)) /\
    lookup_member "run_id" body
    = match us with [] => None | _ :: _ => Some (JString (runId w)) end /\
    lookup_member "unhealthy_routes" body
    = match us with
      | [] => None
      | _ :: _ => Some (JArray (map Unhealthy.to_json us))
      end.
Proof.
  intros Hget us.
  destruct us as [| u0 rest] eqn:Hus.
  - rewrite (monitor_healthy w data Hget Hus). eexists. split.
    + unfold trace_of. cbn [fst snd].
      rewrite last_app_nonempty by discriminate. reflexivity.
    + repeat split.
  - assert (Hne : findUnhealthy (now w) (considered data) [] <> []).
    { fold us. rewrite Hus. discriminate. }
    rewrite (monitor_unhealthy w data Hget Hne). eexists. split.
    + unfold trace_of. cbn [fst snd]. rewrite !app_assoc. apply last_last.
    + unfold report. fold us. rewrite Hus. repeat split.
Qed.

(** C7 fails on the all-healthy outcome: the answer is 200 with the two
    counts, and no run id; the answer of a run that found unhealthy routes
    has one. *)
Lemma healthy_response_has_no_run_id :
  List.last (trace_of (run monitorDSLRoutes nothing_wrong)) Connect
  = Respond 200 (JObject [("status", JString "ok");
                          ("total_routes", count 1);
                          ("unhealthy_count", count 0)]) /\
  lookup_member "run_id"
    (JObject [("status", JString "ok"); ("total_routes", count 1);
              ("unhealthy_count", count 0)]) = None /\
  exists body,
    List.last (trace_of (run monitorDSLRoutes all_well)) Connect = Respond 200 body /\
    lookup_member "run_id" body = Some (JString "uuid-0").
Proof.
  split; [vm_compute; reflexivity |]. split; [reflexivity |].
  eexists. split; vm_compute; reflexivity.
Qed.

(** C8 fails on a display name that every object inherits as a member:
    the owner table does not list "constructor", yet the line of a record
    of that name starts with a mention. *)
Lemma inherited_name_is_mentioned :
  routeOwners all_well !! "constructor" = None /\
  alertLine (routeOwners all_well) namesake
  = BULLET +:+ " <@function Object() { [native code] }> constructor (+94770000000): "
    +:+ "Never reported active" /\
  posted (trace_of (sendSlackAlert [namesake] "uuid-0" all_well started))
  = [(VString "C0123",
      "DSL Route Health Check " +:+ EMDASH +:+ " run_id: uuid-0" +:+ LF
      +:+ "Unhealthy routes detected:" +:+ LF
      +:+ BULLET +:+ " <@function Object() { [native code] }> constructor (+94770000000): "
      +:+ "Never reported active")].
Proof. vm_compute. repeat split. Qed.

(** The alert for the scenario: the listed owner of "Router-A" is
    mentioned, "Router-Z" and "Router-C" are not. *)
Example scenario_alert :
  posted (trace_of (run monitorDSLRoutes all_well))
  = [(VString "C0123",
      "DSL Route Health Check " +:+ EMDASH +:+ " run_id: uuid-0" +:+ LF
      +:+ "Unhealthy routes detected:" +:+ LF
      +:+ BULLET +:+ " <@U123> Router-A (+94770000000): Critical battery level (15%)" +:+ LF
      +:+ BULLET +:+ " Router-Z (+94770000000): Battery low and not charging (25%)" +:+ LF
      +:+ BULLET +:+ " Router-C (+94770000000): Last active 5.0 minutes ago")].
Proof. vm_compute. reflexivity. Qed.

(** ** Logged rows *)

(** C9: the Persister inserts one row per record, in order: the run id;
    the record's id, or "unknown-" followed by an identifier drawn for
    this record alone; name, phone number, country and app version when
    truthy, else null; battery when a number, charging when a boolean,
    last active time when a number, else null; the issues as JSON text. *)
Theorem logged_row_values (rs : list Unhealthy.t) (run_id : string) (w : World)
    (c : Counters) :
  rs <> [] ->
  connect w = None ->
  let t := trace_of (storeUnhealthyRoutes rs run_id w c) in
  length (inserted t) = length rs /\
  (forall i r, nth_error rs i = Some r ->
     nth_error (inserted t) i
     = Some [ VString run_id;
              (if nullish (Unhealthy.id r)
               then VString ("unknown-"
                             +:+ randomUUID w (uuids c + placeholders (firstn i rs)))
               else Unhealthy.id r);
              or_null (Unhealthy.name r);
              or_null (Unhealthy.phone_number r);
              or_null (Unhealthy.country r);
              or_null (Unhealthy.app_version r);
              match Unhealthy.battery r with VNumber _ => Unhealthy.battery r | _ => VNull end;
              match Unhealthy.charging r with VBool _ => Unhealthy.charging r | _ => VNull end;
              match Unhealthy.last_active_time r with
              | VNumber _ => Unhealthy.last_active_time r
              | _ => VNull
              end;
              VString (stringify "" "" (JArray (map JString (Unhealthy.issues r)))) ]) /\
  (forall i j ri rj, (i < j)%nat ->
     nth_error rs i = Some ri -> nth_error rs j = Some rj ->
     nullish (Unhealthy.id ri) = true ->
     (uuids c <= uuids c + placeholders (firstn i rs)
      < uuids c + placeholders (firstn j rs))%nat).
Proof.
  intros Hrs Hconn t.
  destruct (insertRoutes_run rs run_id w c) as (_ & _ & Hins & _).
  assert (Hall : inserted t = rows run_id (safeRouteIds w (uuids c) rs) rs).
  { unfold t. rewrite (store_connected rs run_id w c Hrs Hconn).
    unfold trace_of at 1. cbn [fst snd].
    unfold inserted in *. cbn [flat_map]. rewrite flat_map_app. cbn [flat_map].
    rewrite app_nil_r. exact Hins. }
  rewrite Hall. split; [apply rows_length |]. split.
  - intros i r Hi. rewrite (rows_nth run_id w (uuids c) rs i r Hi).
    unfold rowValues, routeIdAt, or_else, or_null. do 8 f_equal.
    + destruct (Unhealthy.battery r); reflexivity.
    + f_equal. { destruct (Unhealthy.charging r); reflexivity. }
      f_equal. destruct (Unhealthy.last_active_time r); reflexivity.
  - intros i j ri rj Hij Hi Hj Hnull.
    destruct (firstn_split_at rs i j ri Hi Hij) as [tail ->].
    rewrite placeholders_app.
    assert (H1 : (1 <= placeholders (ri :: tail))%nat).
    { unfold placeholders. cbn [List.filter]. rewrite Hnull. cbn [length]. lia. }
    lia.
Qed.

(** Two records, the first with no id, no name and a battery that is
    not a number: its row has a placeholder id and nulls. *)
Lemma logged_row_values_witness :
  let anonymous :=
    {| Unhealthy.id := VNull; Unhealthy.name := VString "";
       Unhealthy.phone_number := VString "+94770000001"; Unhealthy.country := VUndefined;
       Unhealthy.app_version := VString "4.2"; Unhealthy.battery := VString "15";
       Unhealthy.charging := VBool false; Unhealthy.last_active_time := VNull;
       Unhealthy.issues := ["Never reported active"] |} in
  nth_error
    (inserted (trace_of (storeUnhealthyRoutes [anonymous; namesake] "uuid-0" all_well started)))
    0
  = Some [ VString "uuid-0"; VString "unknown-uuid-1"; VNull; VString "+94770000001";
           VNull; VString "4.2"; VNull; VBool false; VNull;
           VString ("[" +:+ DQUOTE +:+ "Never reported active" +:+ DQUOTE +:+ "]") ].
Proof.
  intros anonymous.
  destruct (logged_row_values [anonymous; namesake] "uuid-0" all_well started)
    as (_ & Hrow & _).
  - discriminate.
  - reflexivity.
  - exact (Hrow 0%nat anonymous eq_refl).
Defined.

(** ** The script *)

(** C10: the script never touches the database: no connection, no
    insert, no release.  Its events are console lines, the upstream
    request and at most one posted message; and it classifies all the
    routes it fetched, whatever their [dsl_managed] flag. *)
Theorem script_leaves_store_untouched (w : World) :
  let r := run Dev.testTelerivetRoutes w in
  database (trace_of r) = [] /\
  inserted (trace_of r) = [] /\
  counters_of r = idle /\
  Forall script_event (trace_of r) /\
  (length (posted (trace_of r)) <= 1)%nat /\
  forall data,
    js_not (TELERIVET_API_KEY w) || js_not (TELERIVET_PROJECT_ID w) = false ->
    get w (phones_url (TELERIVET_PROJECT_ID w)) = inr (Body data) ->
    let us := findUnhealthy (now w) (fetched data) [] in
    In (Console Log [Text ("Total routes found: "
                           +:+ digits (Z.of_nat (length (fetched data))))])
       (trace_of r) /\
    posted (trace_of r) = match us with
                          | [] => []
                          | _ :: _ => [(SLACK_CHANNEL_ID w, devText us)]
                          end.
Proof.
  intros r. subst r. rewrite (Dev_run w).
  destruct (js_not (TELERIVET_API_KEY w) || js_not (TELERIVET_PROJECT_ID w)) eqn:Hcreds.
  { explicit_trace. intros; discriminate. }
  destruct (get w (phones_url (TELERIVET_PROJECT_ID w))) as [e | [| data]] eqn:Hget.
  - explicit_trace. intros; discriminate.
  - explicit_trace. intros; discriminate.
  - destruct (delivery_events w (devText (findUnhealthy (now w) (fetched data) [])))
      as (Hev & Hdb & Hpost).
    unfold trace_of, counters_of. cbn [fst snd].
    destruct (findUnhealthy (now w) (fetched data) []) as [| u0 rest] eqn:Hus.
    + explicit_trace. intros data' _ Hd. injection Hd as <-. rewrite Hus. split.
      * simpl. auto 10.
      * reflexivity.
    + split.
      { unfold database in *. rewrite !List.filter_app, Hdb. reflexivity. }
      split.
      { unfold inserted, database in *. rewrite !flat_map_app.
        cbn [flat_map app].
        clear - Hev. induction Hev as [| ev l Hx Hl IH]; [reflexivity |].
        destruct ev; try contradiction; exact IH. }
      split; [reflexivity |].
      split.
      { repeat (apply Forall_app; split); try exact Hev; repeat constructor. }
      split.
      { rewrite !posted_app, Hpost. simpl. lia. }
      intros data' _ Hd. injection Hd as <-. rewrite Hus. split.
      * simpl. auto 10.
      * rewrite !posted_app, Hpost. reflexivity.
Qed.

(** The script on the fleet: it counts five routes and reports four of
    them, the unmanaged "Router-E" included, in one message. *)
Lemma script_leaves_store_untouched_witness :
  database (trace_of (run Dev.testTelerivetRoutes all_well)) = [] /\
  In (Console Log [Text "Total routes found: 5"])
     (trace_of (run Dev.testTelerivetRoutes all_well)) /\
  map snd (posted (trace_of (run Dev.testTelerivetRoutes all_well)))
  = [ "DSL Route Health Check" +:+ LF +:+ "Unhealthy routes detected:" +:+ LF
      +:+ BULLET +:+ " Router-A (+94770000000): Critical battery level (15%)" +:+ LF
      +:+ BULLET +:+ " Router-Z (+94770000000): Battery low and not charging (25%)" +:+ LF
      +:+ BULLET +:+ " Router-C (+94770000000): Last active 5.0 minutes ago" +:+ LF
      +:+ BULLET +:+ " Router-E (undefined): Never reported active, "
      +:+ "Critical battery level (5%)" ].
Proof.
  destruct (script_leaves_store_untouched all_well) as (Hdb & _ & _ & _ & _ & Hrun).
  destruct (Hrun (Some fleet) eq_refl eq_refl) as (Hcount & Hposted).
  split; [exact Hdb |]. split; [exact Hcount |].
  rewrite Hposted. vm_compute. reflexivity.
Defined.

(** ** Further properties: the loop over the routes *)

Lemma findUnhealthy_acc (now : number) (routes : list Route.t) (acc : list Unhealthy.t) :
  findUnhealthy now routes acc = acc ++ findUnhealthy now routes [].
Proof.
  revert acc. induction routes as [| r rest IH]; intros acc; simpl.
  - rewrite app_nil_r. reflexivity.
  - destruct (0 <? length (routeIssues now r))%nat; unfold push.
    + rewrite IH, (IH ([] ++ _)). simpl. rewrite <- app_assoc. reflexivity.
    + apply IH.
Qed.

Lemma findUnhealthy_filter_map (now : number) (routes : list Route.t) :
  findUnhealthy now routes []
  = map (fun r => unhealthy r (routeIssues now r)) (List.filter (has_issues now) routes).
Proof.
  induction routes as [| r rest IH]; [reflexivity |].
  simpl. rewrite findUnhealthy_acc, IH. unfold has_issues, push.
  destruct (0 <? length (routeIssues now r))%nat; reflexivity.
Qed.

Lemma routeIssues_bounds (now : number) (r : Route.t) :
  (length (routeIssues now r) <= 2)%nat.
Proof.
  rewrite routeIssues_app, length_app, checkLastActive_cases.
  assert (length (checkBattery r []) <= 1)%nat.
  { unfold checkBattery, push.
    destruct (String.eqb _ _); [destruct (less_than _ _); [| destruct (_ && _)] |];
      simpl; lia. }
  destruct (js_not _); [| destruct (gtb _ _)]; simpl; lia.
Qed.

(** X1: the loop reports the routes that have an issue, in the order
    they came, each with the issues of that route alone: it is a filter
    followed by a map, never reports more routes than it was given, and
    the report of two lists in a row is the two reports in a row. *)
Theorem classification_is_filter_map (now : number) (routes : list Route.t)
    (acc : list Unhealthy.t) :
  findUnhealthy now routes acc
  = acc ++ map (fun r => unhealthy r (routeIssues now r))
             (List.filter (has_issues now) routes) /\
  (length (findUnhealthy now routes []) <= length routes)%nat /\
  (forall l1 l2, findUnhealthy now (l1 ++ l2) []
                 = findUnhealthy now l1 [] ++ findUnhealthy now l2 []).
Proof.
  split; [rewrite findUnhealthy_acc, findUnhealthy_filter_map; reflexivity |].
  split.
  - rewrite findUnhealthy_filter_map, length_map. apply List.filter_length_le.
  - intros l1 l2. rewrite !findUnhealthy_filter_map, List.filter_app, map_app. reflexivity.
Qed.

(** X2: every record the loop reports has one or two issues and copies
    the fields of one of the routes given. *)
Theorem unhealthy_records_invariant (now : number) (routes : list Route.t)
    (u : Unhealthy.t) :
  In u (findUnhealthy now routes []) ->
  (1 <= length (Unhealthy.issues u) <= 2)%nat /\
  exists r, In r routes /\ u = unhealthy r (routeIssues now r).
Proof.
  rewrite findUnhealthy_filter_map, in_map_iff.
  intros (r & <- & Hr). apply List.filter_In in Hr as [Hin His].
  split.
  - cbn [unhealthy Unhealthy.issues]. unfold has_issues in His.
    apply Nat.ltb_lt in His. pose proof (routeIssues_bounds now r). lia.
  - exists r. split; [exact Hin | reflexivity].
Qed.

Lemma unhealthy_records_invariant_witness :
  let r := device "Router-Z" (num 25) (VBool false) just_now (VBool true) in
  (1 <= length (Unhealthy.issues (unhealthy r (routeIssues clock r))) <= 2)%nat.
Proof.
  intros r.
  apply (unhealthy_records_invariant clock fleet (unhealthy r (routeIssues clock r))).
  vm_compute. right. left. reflexivity.
Defined.




(** A lag that is not positive gives a quotient that is not above one. *)
Lemma negative_lag_not_stale (d : number) :
  leb d (S754_zero false) = true -> gtb (div d (of_Z 60000)) (of_Z 1) = false.
Proof.
  destruct d as [s | [] | | [] m e]; try discriminate; intros _.
  - destruct s; reflexivity.
  - reflexivity.
  - unfold div, SFdiv. change (of_Z 60000) with (S754_finite false 8246337208320000 (-37)).
    cbv iota beta.
    destruct (SFdiv_core_binary prec emax (Z.pos m) e 8246337208320000 (-37))
      as [[mz ez] lz].
    unfold binary_round_aux.
    destruct (shr_fexp prec emax mz ez lz) as [mrs' e'].
    destruct (shr_fexp prec emax _ e' loc_Exact) as [mrs'' e''].
    destruct (shr_m mrs''); [reflexivity | | reflexivity].
    destruct (e'' <=? emax - prec); reflexivity.
Qed.

(** X4: the staleness test is strict and one-sided: a timestamp at or
    ahead of the clock gives no issue, a lag of exactly one minute gives
    none, and a lag of one millisecond more gives "Last active 1.0 minutes
    ago". *)
Theorem staleness_threshold (now : number) (r : Route.t) :
  let v := Route.last_active_time r in
  let lag := sub now (mul (ToNumber v) (of_Z 1000)) in
  js_not v = false ->
  (leb lag (S754_zero false) = true -> checkLastActive now r [] = []) /\
  (lag = of_Z 60000 -> checkLastActive now r [] = []) /\
  (lag = of_Z 60001 -> checkLastActive now r [] = ["Last active 1.0 minutes ago"]).
Proof.
  intros v lag Hv. subst v lag. rewrite checkLastActive_cases, Hv. unfold minutesAgo.
  split; [| split].
  - intros Hlag. rewrite (negative_lag_not_stale _ Hlag). reflexivity.
  - intros ->. reflexivity.
  - intros ->. reflexivity.
Qed.

(** A device whose clock is a minute ahead, one seen sixty seconds ago,
    and a reading one millisecond later. *)
Lemma staleness_threshold_witness :
  checkLastActive clock (device "Router-F" VNull VNull (num 1700000060) (VBool true)) [] = [] /\
  checkLastActive clock (device "Router-G" VNull VNull (num 1699999940) (VBool true)) [] = [] /\
  checkLastActive (of_Z 1700000000001)
    (device "Router-G" VNull VNull (num 1699999940) (VBool true)) []
  = ["Last active 1.0 minutes ago"].
Proof.
  split; [| split].
  - destruct (staleness_threshold clock
                (device "Router-F" VNull VNull (num 1700000060) (VBool true)) eq_refl)
      as (H & _).
    apply H. reflexivity.
  - destruct (staleness_threshold clock
                (device "Router-G" VNull VNull (num 1699999940) (VBool true)) eq_refl)
      as (_ & H & _).
    apply H. reflexivity.
  - destruct (staleness_threshold (of_Z 1700000000001)
                (device "Router-G" VNull VNull (num 1699999940) (VBool true)) eq_refl)
      as (_ & _ & H).
    apply H. reflexivity.
Defined.

(** ** Further properties: traces *)

Lemma responses_app (t1 t2 : list event) : responses (t1 ++ t2) = responses t1 ++ responses t2.
Proof. apply flat_map_app. Qed.

Lemma requests_app (t1 t2 : list event) : requests (t1 ++ t2) = requests t1 ++ requests t2.
Proof. apply flat_map_app. Qed.

Lemma database_app (t1 t2 : list event) : database (t1 ++ t2) = database t1 ++ database t2.
Proof. apply List.filter_app. Qed.

Lemma errors_app (t1 t2 : list event) : errors (t1 ++ t2) = errors t1 ++ errors t2.
Proof. apply List.filter_app. Qed.

Lemma inserted_app (t1 t2 : list event) : inserted (t1 ++ t2) = inserted t1 ++ inserted t2.
Proof. apply flat_map_app. Qed.

Lemma quiet_responses (t : list event) : Forall quiet t -> responses t = [] /\ requests t = [].
Proof.
  induction 1 as [| e t He _ [IH1 IH2]]; [split; reflexivity |].
  destruct e; try contradiction; split; assumption.
Qed.

Lemma insert_events_quiet (t : list event) : Forall insert_event t -> Forall quiet t.
Proof.
  induction 1 as [| e t He _ IH]; constructor; [| exact IH].
  destruct e; try contradiction; exact I.
Qed.

Lemma insertRoutes_events (rs : list Unhealthy.t) (run_id : string) (w : World) (c : Counters) :
  Forall insert_event (trace_of (insertRoutes rs run_id w c)).
Proof.
  revert c. induction rs as [| r0 rest IH]; intros c.
  - constructor.
  - cbn [insertRoutes].
    assert (Hsid : exists sid c1, safeRouteId r0 w c = (Returned sid, [], c1)).
    { unfold safeRouteId. destruct (nullish (Unhealthy.id r0)); eexists; eexists; reflexivity. }
    destruct Hsid as (sid & c1 & Hsid).
    rewrite (bind_run _ _ w c _ _ _ Hsid).
    assert (Hq : exists tq c2,
               try_catch (client_query INSERT (rowValues run_id sid r0))
                 (fun err => logError "DB Insert Error (single route)" err) w c1
               = (Returned tt, tq, c2) /\ Forall insert_event tq).
    { unfold try_catch, client_query, bind, emit, of_option, throw, ret. simpl.
      destruct (query w (queries c1) _) as [e |]; simpl.
      - rewrite logError_run. eexists; eexists; split; [reflexivity |].
        repeat constructor.
      - eexists; eexists; split; [reflexivity |]. repeat constructor. }
    destruct Hq as (tq & c2 & Hq & Htq).
    rewrite (bind_run _ _ w c1 _ _ _ Hq).
    unfold trace_of. cbn [fst snd app]. apply Forall_app. split; [exact Htq |].
    apply (IH c2).
Qed.

Lemma notifying_quiet (w : World) (us : list Unhealthy.t) (run_id : string) :
  Forall quiet (notifying w us run_id).
Proof.
  unfold notifying. destruct (js_not (SLACK_CHANNEL_ID w)).
  - repeat constructor.
  - unfold delivery, logged. destruct (postMessage w _ _); repeat constructor.
Qed.

Lemma failures_length (w : World) (q : nat) (rws : list (list value)) :
  (length (failures w q rws) <= length rws)%nat.
Proof.
  revert q. induction rws as [| values rest IH]; intros q; simpl; [lia |].
  specialize (IH (S q)). destruct (query w q values); simpl; lia.
Qed.

(** ** Further properties: the Persister *)

(** X5: once connected, the Persister returns whatever the inserts
    answer: on the database it connects once, inserts every record in
    order and releases once, last; it logs one line per failed insert and
    nothing else as an error; it issues as many queries as there are
    records. *)
Theorem persister_isolates_failures (rs : list Unhealthy.t) (run_id : string) (w : World)
    (c : Counters) :
  rs <> [] ->
  connect w = None ->
  let r := storeUnhealthyRoutes rs run_id w c in
  let rws := rows run_id (safeRouteIds w (uuids c) rs) rs in
  outcome_of r = Returned tt /\
  database (trace_of r) = Connect :: map (Query INSERT) rws ++ [Release] /\
  length rws = length rs /\
  errors (trace_of r)
  = map (logged "DB Insert Error (single route)") (failures w (queries c) rws) /\
  (length (errors (trace_of r)) <= length rs)%nat /\
  counters_of r = {| uuids := uuids c + placeholders rs; queries := queries c + length rs |}.
Proof.
  intros Hrs Hconn r rws. subst r.
  rewrite (store_connected rs run_id w c Hrs Hconn).
  destruct (insertRoutes_run rs run_id w c) as (_ & Hc & _ & Herr & Hdb & _).
  assert (Hlen : length rws = length rs) by apply rows_length.
  assert (Ht : trace_of (Returned tt,
                         Connect :: trace_of (insertRoutes rs run_id w c) ++ [Release],
                         counters_of (insertRoutes rs run_id w c))
               = [Connect] ++ trace_of (insertRoutes rs run_id w c) ++ [Release])
    by reflexivity.
  rewrite Ht. clear Ht.
  split; [reflexivity |].
  split; [rewrite !database_app, Hdb; reflexivity |].
  split; [exact Hlen |].
  assert (He : errors ([Connect] ++ trace_of (insertRoutes rs run_id w c) ++ [Release])
               = map (logged "DB Insert Error (single route)") (failures w (queries c) rws)).
  { rewrite !errors_app, Herr. cbn [errors List.filter app]. apply app_nil_r. }
  split; [exact He |].
  split; [| exact Hc].
  rewrite He, length_map, <- Hlen. apply failures_length.
Qed.

(** Every insert of the batch fails: three inserts, three logged errors,
    and the Persister returns. *)
Lemma persister_isolates_failures_witness :
  outcome_of (storeUnhealthyRoutes batch "uuid-0" every_insert_fails started) = Returned tt /\
  length (database (trace_of (storeUnhealthyRoutes batch "uuid-0" every_insert_fails started)))
  = 5%nat /\
  length (errors (trace_of (storeUnhealthyRoutes batch "uuid-0" every_insert_fails started)))
  = 3%nat.
Proof.
  destruct (persister_isolates_failures batch "uuid-0" every_insert_fails started)
    as (Ho & Hdb & _ & Herr & _).
  - vm_compute. discriminate.
  - reflexivity.
  - split; [exact Ho |]. split.
    + rewrite Hdb. vm_compute. reflexivity.
    + rewrite Herr. vm_compute. reflexivity.
Defined.

Lemma or_else_null_suits (col : column) (v : value) :
  not_null col = false ->
  (exists n, column_type col = VARCHAR n) ->
  suits col (or_else v VNull) = true.
Proof.
  intros Hnn [n Ht]. unfold or_else, suits.
  destruct (ToBoolean v) eqn:Hb; [| rewrite Hnn; reflexivity].
  destruct v; try discriminate; rewrite Ht; reflexivity.
Qed.

Lemma rowValues_suit (run_id : string) (sid : value) (r : Unhealthy.t) :
  nullish sid = false ->
  row_suits inserted_columns (rowValues run_id sid r) = true.
Proof.
  intros Hsid. unfold rowValues, inserted_columns.
  cbn [List.filter unhealthy_routes_log generated negb row_suits].
  rewrite !or_else_null_suits by (reflexivity || (eexists; reflexivity)).
  assert (H2 : suits {| column_name := "route_id"; column_type := VARCHAR 64;
                        not_null := true; generated := false |} sid = true).
  { destruct sid; try discriminate; reflexivity. }
  rewrite H2.
  destruct (Unhealthy.battery r), (Unhealthy.charging r), (Unhealthy.last_active_time r);
    reflexivity.
Qed.

Lemma safeRouteIds_present (w : World) (u : nat) (rs : list Unhealthy.t) :
  Forall (fun v => nullish v = false) (safeRouteIds w u rs).
Proof.
  revert u. induction rs as [| r rest IH]; intros u; simpl; [constructor |].
  destruct (nullish (Unhealthy.id r)) eqn:Hn; constructor; auto.
Qed.

Lemma rows_suit (run_id : string) (ids : list value) (rs : list Unhealthy.t) :
  Forall (fun v => nullish v = false) ids ->
  Forall (fun row => row_suits inserted_columns row = true) (rows run_id ids rs).
Proof.
  intros Hids. revert rs. induction Hids as [| id ids Hid _ IH]; intros rs.
  - constructor.
  - destruct rs as [| r rest]; [constructor |].
    cbn [rows]. constructor; [apply rowValues_suit; exact Hid | apply IH].
Qed.

(** X6: every row the Persister inserts has one parameter per column
    the INSERT names, none of them null for a NOT NULL column ([run_id],
    [route_id], [issues]), and a number or null for [battery] and
    [last_active_time], a boolean or null for [charging]; whatever the
    records hold. *)
Theorem rows_suit_the_table (rs : list Unhealthy.t) (run_id : string) (w : World)
    (c : Counters) :
  map column_name inserted_columns
  = ["run_id"; "route_id"; "route_name"; "phone_number"; "country";
     "app_version"; "battery"; "charging"; "last_active_time"; "issues"] /\
  Forall (fun row => row_suits inserted_columns row = true)
    (inserted (trace_of (storeUnhealthyRoutes rs run_id w c))).
Proof.
  split; [reflexivity |].
  destruct rs as [| r rest]; [constructor |].
  destruct (connect w) as [e |] eqn:Hc.
  - rewrite (store_connect_failed (r :: rest) run_id w c e) by (discriminate || exact Hc).
    constructor.
  - rewrite (store_connected (r :: rest) run_id w c) by (discriminate || exact Hc).
    destruct (insertRoutes_run (r :: rest) run_id w c) as (_ & _ & Hins & _).
    unfold trace_of at 1. cbn [fst snd].
    change (Connect :: ?t ++ [Release]) with ([Connect] ++ t ++ [Release]).
    rewrite !inserted_app, Hins. cbn [inserted flat_map app]. rewrite app_nil_r.
    apply rows_suit, safeRouteIds_present.
Qed.

(** ** Further properties: the Notifier *)

(** X7: the Notifier returns in every world and draws no identifier
    and issues no query: it posts one message when the channel is set and
    none otherwise; it logs an error exactly when the delivery failed;
    it never touches the database. *)
Theorem notifier_never_throws (us : list Unhealthy.t) (run_id : string) (w : World)
    (c : Counters) :
  let r := sendSlackAlert us run_id w c in
  let text := alertText (routeOwners w) us run_id in
  outcome_of r = Returned tt /\
  counters_of r = c /\
  posted (trace_of r)
  = (if js_not (SLACK_CHANNEL_ID w) then [] else [(SLACK_CHANNEL_ID w, text)]) /\
  errors (trace_of r)
  = (if js_not (SLACK_CHANNEL_ID w) then []
     else match postMessage w (SLACK_CHANNEL_ID w) text with
          | Some e => [logged "Slack Notification Error" e]
          | None => []
          end) /\
  database (trace_of r) = [].
Proof.
  intros r text. subst r text. rewrite sendSlackAlert_run.
  unfold outcome_of, trace_of, counters_of, notifying. cbn [fst snd].
  destruct (js_not (SLACK_CHANNEL_ID w)); [repeat split |].
  unfold delivery, logged. destruct (postMessage w _ _); repeat split.
Qed.

(** X14: for a device with a name and a phone number that the owner
    table does not list (and no object inherits), the script and the
    cloud function write the same line. *)
Theorem alert_lines_agree (owners : gmap string value) (r : Unhealthy.t)
    (name phone : string) :
  Unhealthy.name r = VString name -> name <> "" ->
  Unhealthy.phone_number r = VString phone -> phone <> "" ->
  owners !! name = None -> prototype_member name = None ->
  alertLine owners r = Dev.alertLine r.
Proof.
  intros Hn Hne Hp Hpe Ho Hproto. unfold alertLine, Dev.alertLine, or_else.
  rewrite Hn, Hp. cbn [ToString ToBoolean].
  rewrite (mention_unlisted owners name Ho Hproto).
  destruct (String.eqb_spec name ""); [contradiction |].
  destruct (String.eqb_spec phone ""); [contradiction |].
  reflexivity.
Qed.

Lemma alert_lines_agree_witness :
  let r := unhealthy (device "Router-Z" (num 25) (VBool false) just_now (VBool true))
             ["Battery low and not charging (25%)"] in
  alertLine (routeOwners all_well) r = Dev.alertLine r.
Proof.
  intros r.
  apply (alert_lines_agree (routeOwners all_well) r "Router-Z" "+94770000000");
    try reflexivity; discriminate.
Defined.

(** ** Further properties: the Run Coordinator *)

Lemma persisting_cases (w : World) (us : list Unhealthy.t) :
  us <> [] ->
  persisting w us
  = match connect w with
    | Some e => [Connect; logged "storeUnhealthyRoutes failed" e]
    | None => Connect :: trace_of (insertRoutes us (runId w) w started) ++ [Release]
    end.
Proof.
  intros Hus. unfold persisting. destruct (connect w) as [e |] eqn:Hc.
  - rewrite (store_connect_failed us (runId w) w started e Hus Hc). reflexivity.
  - rewrite (store_connected us (runId w) w started Hus Hc).
    unfold trace_of at 1, outcome_of. cbn [fst snd]. apply app_nil_r.
Qed.

Lemma persisting_events (w : World) (us : list Unhealthy.t) :
  Forall quiet (persisting w us).
Proof.
  destruct us as [| u rest].
  - unfold persisting. rewrite store_empty. constructor.
  - rewrite persisting_cases by discriminate. destruct (connect w) as [e |].
    + unfold logged. repeat constructor.
    + constructor; [exact I |]. apply Forall_app. split; [| repeat constructor].
      apply insert_events_quiet, insertRoutes_events.
Qed.

(** The run of the cloud function, in every world: the events before the
    answer hold no answer and no second request; the answer comes last. *)
Lemma monitor_run (w : World) :
  exists t,
    run monitorDSLRoutes w
    = (Returned tt, preamble w ++ t ++ [answer w], counters_of (run monitorDSLRoutes w)) /\
    Forall quiet t.
Proof.
  unfold answer.
  destruct (get w (phones_url (TELERIVET_PROJECT_ID w))) as [e | [| data]] eqn:Hget.
  - rewrite (monitor_fetch_failed w e Hget). eexists [_]. split; [reflexivity |].
    unfold logged. repeat constructor.
  - rewrite (monitor_unexpected w Hget). eexists [_]. split; [reflexivity |].
    unfold logged. repeat constructor.
  - destruct (findUnhealthy (now w) (considered data) []) as [| u rest] eqn:Hus.
    + rewrite (monitor_healthy w data Hget Hus). eexists [_; _; _].
      split; [reflexivity |]. repeat constructor.
    + assert (Hne : findUnhealthy (now w) (considered data) [] <> [])
        by (rewrite Hus; discriminate).
      rewrite (monitor_unhealthy w data Hget Hne). rewrite Hus.
      exists (summary w data ++ persisting w (u :: rest) ++ notifying w (u :: rest) (runId w)).
      split.
      * unfold counters_of at 2. cbn [snd]. rewrite <- !app_assoc. reflexivity.
      * apply Forall_app; split; [| apply Forall_app; split].
        -- unfold summary. repeat constructor.
        -- apply persisting_events.
        -- apply notifying_quiet.
Qed.


(** X9: the answer depends on the upstream answer, the clock and the
    run id alone: two worlds that agree on these get the same answer,
    however their database, chat, owner table and configuration differ. *)
Theorem answer_ignores_collaborators (w1 w2 : World) :
  get w1 (phones_url (TELERIVET_PROJECT_ID w1)) = get w2 (phones_url (TELERIVET_PROJECT_ID w2)) ->
  now w1 = now w2 ->
  randomUUID w1 0 = randomUUID w2 0 ->
  responses (trace_of (run monitorDSLRoutes w1)) = responses (trace_of (run monitorDSLRoutes w2)).
Proof.
  intros Hg Hn Hu.
  assert (Ha : answer w1 = answer w2).
  { unfold answer, report, runId. rewrite Hg, Hn, Hu. reflexivity. }
  destruct (monitor_run w1) as (t1 & -> & Hq1).
  destruct (monitor_run w2) as (t2 & -> & Hq2).
  unfold trace_of. cbn [fst snd].
  rewrite !responses_app, (proj1 (quiet_responses t1 Hq1)), (proj1 (quiet_responses t2 Hq2)), Ha.
  reflexivity.
Qed.

(** The same fleet with the database up and a working chat, and with the
    database down and no credentials checked: one answer. *)
Lemma answer_ignores_collaborators_witness :
  responses (trace_of (run monitorDSLRoutes all_well))
  = responses (trace_of (run monitorDSLRoutes database_down)) /\
  responses (trace_of (run monitorDSLRoutes all_well))
  = responses (trace_of (run monitorDSLRoutes no_credentials)).
Proof.
  split.
  - apply (answer_ignores_collaborators all_well database_down); reflexivity.
  - apply (answer_ignores_collaborators all_well no_credentials); reflexivity.
Defined.





(** X12: an upstream answer whose [data] is not a list is no error: it
    counts as no route, and the run answers 200 with both counts zero
    without logging an error or touching the database or the chat. *)
Theorem non_list_payload_is_healthy (w : World) :
  get w (phones_url (TELERIVET_PROJECT_ID w)) = inr (Body None) ->
  let r := run monitorDSLRoutes w in
  outcome_of r = Returned tt /\
  responses (trace_of r)
  = [(200, JObject [("status", JString "ok");
                    ("total_routes", count 0);
                    ("unhealthy_count", count 0)])] /\
  errors (trace_of r) = [] /\ database (trace_of r) = [] /\ posted (trace_of r) = [].
Proof.
  intros Hget r. subst r. rewrite (monitor_healthy w None Hget eq_refl). repeat split.
Qed.

Lemma non_list_payload_is_healthy_witness :
  errors (trace_of (run monitorDSLRoutes not_a_list)) = [] /\
  map fst (responses (trace_of (run monitorDSLRoutes not_a_list))) = [200].
Proof.
  destruct (non_list_payload_is_healthy not_a_list eq_refl) as (_ & Hr & He & _).
  split; [exact He | rewrite Hr; reflexivity].
Defined.

(** ** Further properties: the script *)

(** X13: the script never ends in an exception: it exits with code 1,
    after one error line and before any request, exactly when a credential
    is missing; otherwise it returns after one upstream request. *)
Theorem script_never_throws (w : World) :
  let r := run Dev.testTelerivetRoutes w in
  let missing := js_not (TELERIVET_API_KEY w) || js_not (TELERIVET_PROJECT_ID w) in
  outcome_of r = (if missing then Exited 1 else Returned tt) /\
  requests (trace_of r)
  = (if missing then [] else [phones_url (TELERIVET_PROJECT_ID w)]) /\
  (missing = true ->
   trace_of r
   = [Console Error
        [Text "Missing TELERIVET_API_KEY or TELERIVET_PROJECT_ID environment variables."]]).
Proof.
  intros r missing. subst r missing. rewrite (Dev_run w).
  destruct (js_not (TELERIVET_API_KEY w) || js_not (TELERIVET_PROJECT_ID w)).
  { repeat split. }
  destruct (get w (phones_url (TELERIVET_PROJECT_ID w))) as [e | [| data]].
  - split; [reflexivity |]. split; [reflexivity | discriminate].
  - split; [reflexivity |]. split; [reflexivity | discriminate].
  - split; [reflexivity |]. split; [| discriminate].
    unfold trace_of. cbn [fst snd].
    destruct (findUnhealthy (now w) (fetched data) []); [reflexivity |].
    rewrite !requests_app. unfold delivery, logged.
    destruct (postMessage w _ _); reflexivity.
Qed.

(** Started without its API key the script exits at once; the cloud
    function in the same world sends its request all the same. *)
Lemma script_never_throws_witness :
  outcome_of (run Dev.testTelerivetRoutes no_credentials) = Exited 1 /\
  requests (trace_of (run Dev.testTelerivetRoutes no_credentials)) = [] /\
  outcome_of (run Dev.testTelerivetRoutes all_well) = Returned tt.
Proof.
  destruct (script_never_throws no_credentials) as (Ho & Hr & _).
  destruct (script_never_throws all_well) as (Ho' & _).
  split; [exact Ho |]. split; [exact Hr | exact Ho'].
Defined.
